(** * Session and authorization model of the quiz portal front end

    A shallow embedding of [src/auth/jwt.ts] (token codec and session
    store), of the [AuthProvider] component (hydration effect, [signIn],
    [signOut]) and of the [PrivateRoute] guard.

    JavaScript values are untyped at run time, so the values that flow
    through the code (decoded claims, login response bodies, the fields
    of the current user) are modelled by [JSValue].  The browser
    built-ins the code calls ([atob], [JSON.parse], [JSON.stringify] and
    the implicit string and number coercions) are an interface,
    [Platform]; every theorem holds for every platform.  A reference
    platform is provided to run the model on concrete inputs.

    Numbers are exact rationals: the rounding of IEEE doubles is not
    modelled.  Strings are sequences of one-byte characters. *)

From Stdlib Require Import ZArith QArith Ascii String List Bool Lia DecimalString.
From stdpp Require Import base gmap strings.

Local Open Scope string_scope.

(** ** JavaScript values *)

#[local] Set Warnings "-register-all".

Inductive JSValue : Type :=
| JUndefined
| JNull
| JBool (b : bool)
| JNum (q : Q)
| JStr (s : string)
| JArr (items : list JSValue)
| JObj (fields : list (string * JSValue)).

(** Thrown values. [Error] is [new Error(message)]; the others are the
    exceptions raised by the built-ins and by the language itself. *)
Inductive JSError : Type :=
| Error (message : string)
| TypeError
| SyntaxError
| InvalidCharacterError
| NetworkError.

(** [Boolean(v)]: the test performed by [if], [!], [&&] and [||]. *)
Definition truthy (v : JSValue) : bool :=
  match v with
  | JUndefined | JNull => false
  | JBool b => b
  | JNum q => negb (Qeq_bool q 0)
  | JStr s => negb (String.eqb s "")
  | JArr _ | JObj _ => true
  end.

(** The left operand test of [??]. *)
Definition nullish (v : JSValue) : bool :=
  match v with
  | JUndefined | JNull => true
  | _ => false
  end.

(** [a ?? b] *)
Definition coalesce (a b : JSValue) : JSValue :=
  if nullish a then b else a.

Fixpoint lookup_field (k : string) (fields : list (string * JSValue)) : JSValue :=
  match fields with
  | [] => JUndefined
  | (k', v) :: rest => if String.eqb k k' then v else lookup_field k rest
  end.

(** [v?.k] for the property names the code reads ([exp], [email],
    [role], [sub], [name], [user], [access_token], [userId], [id],
    [message]).  Only a plain object has an own property of such a name;
    on [null] and [undefined] optional chaining gives [undefined]; on a
    primitive or an array the lookup reaches the prototype, where none
    of these names is a data property.  (A string inherits a method
    named [sub]; [signIn] reads [sub] from a value that may be a string
    only under the test [typeof ... === "number"], which a method fails
    as [undefined] does, and the navigation bar reads it without that
    test, see [Navbar_me].) *)
Definition get (v : JSValue) (k : string) : JSValue :=
  match v with
  | JObj fields => lookup_field k fields
  | _ => JUndefined
  end.

Definition is_number (v : JSValue) : bool :=
  match v with JNum _ => true | _ => false end.


Definition Qlt_bool (a b : Q) : bool := negb (Qle_bool b a).

(** ** The running application *)

(** [type User] of the auth context, with the fields as they are at run
    time. *)
Record User : Type := mkUser {
  userId : JSValue;
  email : JSValue;
  name : JSValue;
  role : JSValue
}.

(** [localStorage], the two pieces of React state of [AuthProvider], and
    the history stack of the router (current entry first). *)
Record World : Type := mkWorld {
  storage : gmap string string;
  user : option User;
  hydrating : bool;
  history : list string
}.

(** ** Computations: state and exceptions *)

Inductive Outcome (A : Type) : Type :=
| Ret (a : A)
| Throw (e : JSError).
Arguments Ret {A} a.
Arguments Throw {A} e.

Definition M (A : Type) : Type := World -> Outcome A * World.

Definition ret {A} (a : A) : M A := fun w => (Ret a, w).

Definition throw {A} (e : JSError) : M A := fun w => (Throw e, w).

Definition bind {A B} (m : M A) (k : A -> M B) : M B :=
  fun w =>
    match m w with
    | (Ret a, w') => k a w'
    | (Throw e, w') => (Throw e, w')
    end.

Notation "'let*' x ':=' m 'in' k" := (bind m (fun x => k))
  (at level 10, x name, m at level 200, k at level 200).
Notation "m ';;' k" := (bind m (fun _ => k))
  (at level 100, right associativity).

(** [try { body } catch { handler }] *)
Definition try_catch {A} (body : M A) (handler : M A) : M A :=
  fun w =>
    match body w with
    | (Ret a, w') => (Ret a, w')
    | (Throw _, w') => handler w'
    end.

(** [try { body } finally { final }] *)
Definition try_finally {A} (body : M A) (final : M unit) : M A :=
  fun w =>
    match body w with
    | (r, w') =>
        match final w' with
        | (Ret _, w'') => (r, w'')
        | (Throw e, w'') => (Throw e, w'')
        end
    end.

(** ** Roles and rendered elements *)

(** [type Role] *)
Inductive Role : Type := STUDENT | INSTRUCTOR | ADMIN.

Definition role_name (r : Role) : string :=
  match r with
  | STUDENT => "STUDENT"
  | INSTRUCTOR => "INSTRUCTOR"
  | ADMIN => "ADMIN"
  end.

(** What a component returns: [null], [<Navigate to=... replace />] or
    [<>{children}</>]. *)
Inductive Element (C : Type) : Type :=
| Nothing
| Navigate (to : string) (replace : bool)
| Fragment (children : C).
Arguments Nothing {C}.
Arguments Navigate {C} to replace.
Arguments Fragment {C} children.

(** ** The platform interface *)

Class Platform : Type := {
  (** [atob]; [None] is the thrown [InvalidCharacterError]. *)
  atob : string -> option string;
  (** [JSON.parse]; [None] is the thrown [SyntaxError]. *)
  JSON_parse : string -> option JSValue;
  (** [JSON.stringify] on a value that came out of [JSON.parse]. *)
  JSON_stringify : JSValue -> string;
  (** [String(v)] for a [v] that is not a string. *)
  ToString : JSValue -> string;
  (** [Number(v)] for a [v] that is not a number; [None] is [NaN]. *)
  ToNumber : JSValue -> option Q;
  (** The empty text is not JSON. *)
  JSON_parse_empty : JSON_parse "" = None
}.

Section Model.

Context {platform : Platform}.

Definition js_to_string (v : JSValue) : string :=
  match v with
  | JStr s => s
  | _ => ToString v
  end.

Definition js_to_number (v : JSValue) : option Q :=
  match v with
  | JNum q => Some q
  | _ => ToNumber v
  end.

(** [a > v] with a number on the left: the right operand is converted to
    a number, and any comparison with [NaN] is false. *)
Definition js_gt (a : Q) (v : JSValue) : bool :=
  match js_to_number v with
  | Some q => Qlt_bool q a
  | None => false
  end.

(** [Date.now() / 1000] for a clock reading of [now] milliseconds. *)
Definition seconds (now : Z) : Q := Qmake now 1000.

(** A built-in that returns or throws. *)
Definition lift_option {A} (o : option A) (e : JSError) : M A :=
  match o with
  | Some a => ret a
  | None => throw e
  end.

(** [v.k]: a [TypeError] on [null] and [undefined]. *)
Definition prop (v : JSValue) (k : string) : M JSValue :=
  if nullish v then throw TypeError else ret (get v k).

(** *** localStorage *)

Definition getItem (k : string) : M (option string) :=
  fun w => (Ret (storage w !! k), w).

Definition setItem (k : string) (v : JSValue) : M unit :=
  fun w => (Ret tt, mkWorld (<[k := js_to_string v]> (storage w))
                            (user w) (hydrating w) (history w)).

Definition removeItem (k : string) : M unit :=
  fun w => (Ret tt, mkWorld (delete k (storage w))
                            (user w) (hydrating w) (history w)).

(** The result of [getItem] passes an [if (raw)] test: it is neither
    [null] nor the empty string. *)
Definition present (raw : option string) : bool :=
  match raw with
  | Some s => negb (String.eqb s "")
  | None => false
  end.

(** *** React state and router *)

Definition setUser (u : option User) : M unit :=
  fun w => (Ret tt, mkWorld (storage w) u (hydrating w) (history w)).

Definition setHydrating (b : bool) : M unit :=
  fun w => (Ret tt, mkWorld (storage w) (user w) b (history w)).

(** [nav(to, { replace: true })] *)
Definition nav_replace (to : string) : M unit :=
  fun w => (Ret tt, mkWorld (storage w) (user w) (hydrating w)
                            (to :: tail (history w))).

(** ** src/auth/jwt.ts *)

Definition replace_char (from to : ascii) (s : string) : string :=
  string_of_list_ascii
    (map (fun c => if Ascii.eqb c from then to else c) (list_ascii_of_string s)).

(** [s.split(".")] *)
Fixpoint split_dot (s : string) : list string :=
  match s with
  | EmptyString => [EmptyString]
  | String c rest =>
      if Ascii.eqb c "." then EmptyString :: split_dot rest
      else match split_dot rest with
           | h :: t => String c h :: t
           | [] => [String c EmptyString]
           end
  end.

Definition decodeBase64UrlJSON (b64url : string) : M JSValue :=
  let b64 := replace_char "_" "/" (replace_char "-" "+" b64url) in
  let* json := lift_option (atob b64) InvalidCharacterError in
  lift_option (JSON_parse json) SyntaxError.

(** [payload?.exp && Date.now() / 1000 > payload.exp], as a condition. *)
Definition expired (now : Z) (payload : JSValue) : M bool :=
  if truthy (get payload "exp") then
    let* e := prop payload "exp" in
    ret (js_gt (seconds now) e)
  else ret false.

(** [now] is the value [Date.now()] returns on line 24. *)
Definition readJwt (now : Z) : M JSValue :=
  let* raw := getItem "token" in
  if negb (present raw) then ret JNull
  else
    try_catch
      (let parts := split_dot (default "" raw) in
       if (length parts <? 2)%nat then ret JNull
       else
         let* payload := decodeBase64UrlJSON (nth 1 parts "") in
         let* exp := expired now payload in
         if exp then ret JNull else ret payload)
      (ret JNull).

Definition isExpired (now : Z) (payload : JSValue) : bool :=
  if negb (truthy (get payload "exp")) then false
  else js_gt (seconds now) (get payload "exp").

Definition saveSession (token : JSValue) (user : JSValue) : M unit :=
  setItem "token" token ;;
  if truthy user then setItem "user" (JStr (JSON_stringify user))
  else ret tt.

Definition clearSession : M unit :=
  removeItem "token" ;;
  removeItem "user".

(** ** AuthProvider *)

(** State of the component when it mounts: [useState(null)] and
    [useState(true)]. *)
Definition mount (st : gmap string string) (h : list string) : World :=
  mkWorld st None true h.

(** [a.k1 ?? a.k2] *)
Definition prop_or (v : JSValue) (k1 k2 : string) : M JSValue :=
  let* a := prop v k1 in
  if nullish a then prop v k2 else ret a.

(** The effect run once after mounting.  [now_codec] is the clock
    reading taken inside [readJwt], [now_effect] the one taken by the
    effect itself on line 41. *)
Definition hydrate (now_codec now_effect : Z) : M unit :=
  try_finally
    (try_catch
       (let* rawUser := getItem "user" in
        if present rawUser then
          let* parsed := lift_option (JSON_parse (default "" rawUser)) SyntaxError in
          let* uid := prop_or parsed "userId" "id" in
          let* em := prop parsed "email" in
          let* nm := prop parsed "name" in
          let* rl := prop parsed "role" in
          setUser (Some (mkUser (coalesce uid (JNum 0))
                                (coalesce em (JStr ""))
                                (coalesce nm (JStr ""))
                                rl))
        else
          let* payload := readJwt now_codec in
          let* exp := expired now_effect payload in
          if exp then
            clearSession ;;
            setUser None
          else if truthy (get payload "email") && truthy (get payload "role") then
            let* sub := prop payload "sub" in
            let* em := prop payload "email" in
            let* nm := prop payload "name" in
            let* rl := prop payload "role" in
            setUser (Some (mkUser (coalesce sub (JNum 0))
                                  em
                                  (coalesce nm (JStr ""))
                                  rl))
          else ret tt)
       (ret tt))
    (setHydrating false).

(** What [await fetch(...)] gives: a rejection, or a response with its
    [ok] flag and what [res.json()] resolves to ([None]: it rejects). *)
Inductive FetchOutcome : Type :=
| FetchRejected
| Response (ok : bool) (json : option JSValue).

(** The locals [role], [emailOut], [nameOut] and [userId] of [signIn]. *)
Record Locals : Type := mkLocals {
  l_role : JSValue;
  l_emailOut : JSValue;
  l_nameOut : JSValue;
  l_userId : JSValue
}.

(** The [switch (role)] at the end of [signIn]. *)
Definition landing (role : JSValue) : string :=
  match role with
  | JStr s =>
      if String.eqb s "STUDENT" then "/student"
      else if String.eqb s "INSTRUCTOR" then "/instructor"
      else if String.eqb s "ADMIN" then "/admin"
      else "/dashboard"
  | _ => "/dashboard"
  end.

(** Lines 78 to 83. *)
Definition from_body (data : JSValue) : M Locals :=
  if truthy (get data "user") then
    let* u := prop data "user" in
    let* em := prop u "email" in
    let* nm := prop u "name" in
    let* rl := prop u "role" in
    let* uid := prop_or u "userId" "id" in
    ret (mkLocals rl (coalesce em (JStr "")) (coalesce nm (JStr ""))
                  (coalesce uid (JNum 0)))
  else ret (mkLocals JUndefined JUndefined JUndefined (JNum 0)).

(** Lines 85 to 100. *)
Definition from_token (now : Z) (l : Locals) : M Locals :=
  if negb (truthy (l_emailOut l)) || negb (truthy (l_role l)) then
    let* payload := readJwt now in
    if negb (truthy payload) then throw (Error "Invalid token")
    else
      let* em := if negb (truthy (l_emailOut l)) then prop payload "email"
                 else ret (l_emailOut l) in
      let* nm := if negb (truthy (l_nameOut l)) then
                   let* n := prop payload "name" in ret (coalesce n (JStr ""))
                 else ret (l_nameOut l) in
      let* rl := if negb (truthy (l_role l)) then prop payload "role"
                 else ret (l_role l) in
      let* uid := if negb (truthy (l_userId l)) then
                    let* sub := prop payload "sub" in
                    ret (if is_number sub then sub else JNum 0)
                  else ret (l_userId l) in
      ret (mkLocals rl em nm uid)
  else ret l.

(** [res] is the outcome of the login request and [now] the clock
    reading taken by [readJwt] when the token fallback runs. *)
Definition signIn (email password : string) (res : FetchOutcome) (now : Z)
  : M unit :=
  match res with
  | FetchRejected => throw NetworkError
  | Response ok json =>
      if negb ok then
        let j := default (JObj []) json in
        let m := get j "message" in
        throw (Error (js_to_string (if truthy m then m else JStr "Login failed")))
      else
        let* data := lift_option json SyntaxError in
        let* access_token := prop data "access_token" in
        let* data_user := prop data "user" in
        saveSession access_token data_user ;;
        let* l := from_body data in
        let* l := from_token now l in
        setUser (Some (mkUser (l_userId l) (l_emailOut l)
                              (coalesce (l_nameOut l) (JStr "")) (l_role l))) ;;
        nav_replace (landing (l_role l))
  end.

Definition signOut : M unit :=
  clearSession ;;
  setUser None ;;
  nav_replace "/login".

(** ** PrivateRoute *)

(** [roles.includes(v)] for an array of role literals. *)
Definition includes (roles : list Role) (v : JSValue) : bool :=
  match v with
  | JStr s => existsb (fun r => String.eqb (role_name r) s) roles
  | _ => false
  end.

Definition PrivateRoute {C} (children : C) (roles : option (list Role))
  (w : World) : Element C :=
  let token := storage w !! "token" in
  if hydrating w then Nothing
  else
    match user w with
    | None => Navigate "/login" true
    | Some u =>
        if negb (present token) then Navigate "/login" true
        else
          match roles with
          | Some l =>
              if negb (includes l (role u)) then Navigate "/dashboard" true
              else Fragment children
          | None => Fragment children
          end
    end.

(** ** Notions used to state the properties *)

(** The claims a token decodes to: the middle segment of [raw], read as
    base64url JSON ([None]: fewer than two segments, or a decoding step
    throws). *)
Definition token_payload (raw : string) : option JSValue :=
  let parts := split_dot raw in
  if (length parts <? 2)%nat then None
  else
    match atob (replace_char "_" "/" (replace_char "-" "+" (nth 1 parts ""))) with
    | Some json => JSON_parse json
    | None => None
    end.

(** The value of [payload?.exp && Date.now() / 1000 > payload.exp]. *)
Definition expired_b (now : Z) (payload : JSValue) : bool :=
  truthy (get payload "exp") && js_gt (seconds now) (get payload "exp").

(** What [readJwt] returns, as a function of the token slot. *)
Definition readJwt_value (now : Z) (tok : option string) : JSValue :=
  match tok with
  | Some raw =>
      if String.eqb raw "" then JNull
      else
        match token_payload raw with
        | Some p => if expired_b now p then JNull else p
        | None => JNull
        end
  | None => JNull
  end.

(** The current user built from decoded claims (lines 45 to 50). *)
Definition user_of_claims (payload : JSValue) : User :=
  mkUser (coalesce (get payload "sub") (JNum 0))
         (get payload "email")
         (coalesce (get payload "name") (JStr ""))
         (get payload "role").

(** The locals of [signIn] after reading the response body (lines 78
    to 83). *)
Definition body_locals (data : JSValue) : Locals :=
  let u := get data "user" in
  if truthy u then
    mkLocals (get u "role")
             (coalesce (get u "email") (JStr ""))
             (coalesce (get u "name") (JStr ""))
             (coalesce (coalesce (get u "userId") (get u "id")) (JNum 0))
  else mkLocals JUndefined JUndefined JUndefined (JNum 0).

(** [!emailOut || !role]: the token fallback runs. *)
Definition needs_token (l : Locals) : bool :=
  negb (truthy (l_emailOut l)) || negb (truthy (l_role l)).

(** The locals after the token fallback has filled the gaps from the
    decoded claims [p] (lines 89 to 99). *)
Definition token_locals (l : Locals) (p : JSValue) : Locals :=
  mkLocals
    (if negb (truthy (l_role l)) then get p "role" else l_role l)
    (if negb (truthy (l_emailOut l)) then get p "email" else l_emailOut l)
    (if negb (truthy (l_nameOut l)) then coalesce (get p "name") (JStr "")
     else l_nameOut l)
    (if negb (truthy (l_userId l)) then
       if is_number (get p "sub") then get p "sub" else JNum 0
     else l_userId l).

(** The current user [signIn] sets from its locals (line 102). *)
Definition user_of_locals (l : Locals) : User :=
  mkUser (l_userId l) (l_emailOut l) (coalesce (l_nameOut l) (JStr ""))
         (l_role l).

End Model.

(** ** Callers of the session model *)

(** The pages the router can show. *)
Inductive Page : Type :=
| LandingPage | LoginPage | RegisterPage | DashboardPage | QuizListPage
| TakeQuizPage | AttemptPage | ResultPage | InstructorPage
| AttemptDetailPage | AdminDashboard | StudentDashboard | Forbidden
| NotFound.

(** The element of a route of [App]: a page shown as it is, or a page
    (inside the layout) wrapped in [PrivateRoute] with its [roles]
    property. *)
Inductive RouteElement : Type :=
| Public (page : Page)
| Private (roles : option (list Role)) (page : Page).

(** The routes of [App], by their [path] property, in the order of the
    source. *)
Definition App_routes : list (string * RouteElement) :=
  [ ("/", Public LandingPage);
    ("/login", Public LoginPage);
    ("/register", Public RegisterPage);
    ("/dashboard", Private None DashboardPage);
    ("/quizzes", Private None QuizListPage);
    ("/quiz/:quizId/take", Private None TakeQuizPage);
    ("/quiz/:quizId/attempts/:attemptId", Private None AttemptPage);
    ("/quiz/:quizId/attempts/:attemptId/result", Private None ResultPage);
    ("/instructor", Private (Some [INSTRUCTOR]) InstructorPage);
    ("/quiz/:quizId/attempts/:attemptId/detail",
       Private (Some [INSTRUCTOR]) AttemptDetailPage);
    ("/admin", Private (Some [ADMIN]) AdminDashboard);
    ("/student", Private (Some [STUDENT]) StudentDashboard);
    ("/forbidden", Public Forbidden);
    ("*", Public NotFound) ].

(** The element of the route declared with the given [path]. *)
Fixpoint declared_route_in (routes : list (string * RouteElement))
  (path : string) : option RouteElement :=
  match routes with
  | [] => None
  | (p, e) :: rest =>
      if String.eqb p path then Some e else declared_route_in rest path
  end.

Definition declared_route (path : string) : option RouteElement :=
  declared_route_in App_routes path.

(** The state of [DashboardPage]: [hydrating] and [err]. *)
Record DashboardState : Type := mkDashboardState {
  d_hydrating : bool;
  d_err : string
}.

(** The state of [LoginPage] that [handleSubmit] writes: [err] and
    [loading]. *)
Record LoginState : Type := mkLoginState {
  l_err : string;
  l_loading : bool
}.

(** A segment of a token: a text without a dot. *)
Definition no_dot (s : string) : bool :=
  forallb (fun c => negb (Ascii.eqb c ".")) (list_ascii_of_string s).

(** The URL-safe spelling of a base64 text: [-] for [+] and [_] for
    [/]. *)
Definition urlsafe (s : string) : string :=
  replace_char "/" "_" (replace_char "+" "-" s).

Section Callers.

Context {platform : Platform}.

(** *** src/auth/jwt.ts, [authHeaders]

    The returned object, as its list of entries. *)
Definition authHeaders : M (list (string * string)) :=
  let* raw := getItem "token" in
  let token := default "" raw in
  ret (if negb (String.eqb token "") then [("Authorization", "Bearer " ++ token)]
       else []).

(** *** AttemptPage, [logoutAndGoLogin] *)
Definition logoutAndGoLogin : M unit :=
  removeItem "token" ;;
  removeItem "user" ;;
  nav_replace "/login".

(** *** Router *)

(** [nav(to)]: a new history entry. *)
Definition nav_push (to : string) : M unit :=
  fun w => (Ret tt, mkWorld (storage w) (user w) (hydrating w)
                            (to :: history w)).

(** What the route element renders. *)
Definition render_route (e : RouteElement) (w : World) : Element Page :=
  match e with
  | Public page => Fragment page
  | Private roles page => PrivateRoute page roles w
  end.

(** *** RoleHome *)
Definition RoleHome {C} (w : World) : Element C :=
  if hydrating w then Nothing
  else
    match user w with
    | None => Navigate "/login" true
    | Some u =>
        match role u with
        | JStr s =>
            if String.eqb s "ADMIN" then Navigate "/admin" true
            else if String.eqb s "INSTRUCTOR" then Navigate "/instructor" true
            else if String.eqb s "STUDENT" then Navigate "/student" true
            else Navigate "/dashboard" true
        | _ => Navigate "/dashboard" true
        end
    end.

(** *** Navbar *)

(** The constant [me]: the current user, or failing that the claims of
    the stored token.  [now] is the clock reading of [readJwt].  The
    model follows the code for a payload that is an object, a number, a
    boolean or an array; for a payload that is a JSON string the code
    finds the inherited method [sub] where the model, which has no
    function values, gives 0 as [userId]. *)
Definition Navbar_me (now : Z) : M (option User) :=
  fun w =>
    match user w with
    | Some u => (Ret (Some u), w)
    | None =>
        (let* p := readJwt now in
         if truthy p then
           let* sub := prop p "sub" in
           let* em := prop p "email" in
           let* nm := prop p "name" in
           let* rl := prop p "role" in
           ret (Some (mkUser (coalesce sub (JNum 0)) em
                             (coalesce nm (JStr "")) rl))
         else ret None) w
    end.

(** The constant [brandHref]. *)
Definition brandHref (me : option User) : string :=
  match me with
  | Some u =>
      match role u with
      | JStr s =>
          if String.eqb s "ADMIN" then "/admin"
          else if String.eqb s "INSTRUCTOR" then "/instructor"
          else if String.eqb s "STUDENT" then "/student"
          else "/"
      | _ => "/"
      end
  | None => "/"
  end.

Definition handleLogout : M unit :=
  signOut ;;
  nav_push "/login".

(** *** DashboardPage *)

(** The page's own [readJwt]: the second element of the split token is
    [undefined] when there is no dot, and calling [replace] on it is a
    [TypeError]. *)
Definition Dashboard_readJwt : M JSValue :=
  let* raw := getItem "token" in
  if negb (present raw) then ret JNull
  else
    try_catch
      (let* payload := lift_option (nth_error (split_dot (default "" raw)) 1)
                                   TypeError in
       let* json := lift_option
                      (atob (replace_char "_" "/" (replace_char "-" "+" payload)))
                      InvalidCharacterError in
       lift_option (JSON_parse json) SyntaxError)
      (ret JNull).

Definition roleToPath (role : JSValue) : string :=
  match role with
  | JStr s =>
      if String.eqb s "STUDENT" then "/student"
      else if String.eqb s "INSTRUCTOR" then "/instructor"
      else if String.eqb s "ADMIN" then "/admin"
      else "/"
  | _ => "/"
  end.

(** The effect of the page; it returns the state of the page. *)
Definition DashboardPage_effect (now : Z) (s : DashboardState)
  : M DashboardState :=
  let* p := Dashboard_readJwt in
  if negb (truthy p) then
    nav_replace "/login" ;;
    ret s
  else
    let* e := prop p "exp" in
    if truthy e && js_gt (seconds now) e then
      removeItem "token" ;;
      removeItem "user" ;;
      nav_replace "/login" ;;
      ret s
    else
      let* r := prop p "role" in
      if truthy r then
        nav_replace (roleToPath r) ;;
        ret s
      else
        ret (mkDashboardState
               false "Could not determine your role. Please sign in again.").

(** The claims in the token slot, expired or not: what the page's own
    [readJwt] returns. *)
Definition stored_claims (tok : option string) : JSValue :=
  match tok with
  | Some raw =>
      if String.eqb raw "" then JNull else default JNull (token_payload raw)
  | None => JNull
  end.

(** The current user the hydration effect builds from a cached record
    (lines 33 to 38). *)
Definition user_of_record (parsed : JSValue) : User :=
  mkUser (coalesce (coalesce (get parsed "userId") (get parsed "id")) (JNum 0))
         (coalesce (get parsed "email") (JStr ""))
         (coalesce (get parsed "name") (JStr ""))
         (get parsed "role").

(** *** LoginPage *)

Section Messages.

(** The [message] of the exceptions the built-ins throw. *)
Variable builtin_message : JSError -> string.

(** [e.message] *)
Definition error_message (e : JSError) : string :=
  match e with
  | Error m => m
  | _ => builtin_message e
  end.

(** [res] and [now] are those of the [signIn] call; the function returns
    the state of the page. *)
Definition handleSubmit (email password : string) (res : FetchOutcome)
    (now : Z) (s : LoginState) : M LoginState :=
  fun w =>
    let s1 := mkLoginState "" true in
    match (signIn email password res now ;; nav_push "/dashboard") w with
    | (Ret _, w') => (Ret (mkLoginState (l_err s1) false), w')
    | (Throw e, w') =>
        let m := error_message e in
        (Ret (mkLoginState (if negb (String.eqb m "") then m else "Login failed")
                           false),
         w')
    end.

End Messages.

End Callers.

(** ** A reference platform

    An executable instance of [Platform], used to run the model on
    concrete inputs.  [atob] is the forgiving base64 decoder of the HTML
    standard.  The JSON functions cover the fragment with integer
    number literals and without [\u] escapes; a text outside the
    fragment is reported as a syntax error. *)

Module Reference.

Local Open Scope N_scope.

Definition is_space (c : ascii) : bool :=
  let n := N_of_ascii c in
  (n =? 9) || (n =? 10) || (n =? 12) || (n =? 13) || (n =? 32).

Definition sextet (c : ascii) : option N :=
  let n := N_of_ascii c in
  if (65 <=? n) && (n <=? 90) then Some (n - 65)
  else if (97 <=? n) && (n <=? 122) then Some (n - 71)
  else if (48 <=? n) && (n <=? 57) then Some (n + 4)
  else if n =? 43 then Some 62
  else if n =? 47 then Some 63
  else None.

Fixpoint sextets (l : list ascii) : option (list N) :=
  match l with
  | [] => Some []
  | c :: rest =>
      match sextet c, sextets rest with
      | Some n, Some ns => Some (n :: ns)
      | _, _ => None
      end
  end.

Fixpoint bytes_of_sextets (l : list N) : list ascii :=
  match l with
  | a :: b :: c :: d :: rest =>
      ascii_of_N (a * 4 + b / 16)
      :: ascii_of_N ((b mod 16) * 16 + c / 4)
      :: ascii_of_N ((c mod 4) * 64 + d)
      :: bytes_of_sextets rest
  | [a; b; c] =>
      [ascii_of_N (a * 4 + b / 16); ascii_of_N ((b mod 16) * 16 + c / 4)]
  | [a; b] => [ascii_of_N (a * 4 + b / 16)]
  | _ => []
  end.

(** Drops one or two trailing [=] signs. *)
Definition strip_padding (l : list ascii) : list ascii :=
  match rev l with
  | "="%char :: "="%char :: r => rev r
  | "="%char :: r => rev r
  | _ => l
  end.

Definition atob (s : string) : option string :=
  let l := filter (fun c => negb (is_space c)) (list_ascii_of_string s) in
  let l := if (N.of_nat (length l) mod 4 =? 0) then strip_padding l else l in
  if (N.of_nat (length l) mod 4 =? 1) then None
  else
    match sextets l with
    | Some ns => Some (string_of_list_ascii (bytes_of_sextets ns))
    | None => None
    end.

(** *** JSON text *)

Definition code (c : ascii) : N := N_of_ascii c.

(** Code points of the characters of the JSON grammar. *)
Definition c_quote : N := 34.
Definition c_backslash : N := 92.

Definition is_json_space (c : ascii) : bool :=
  (code c =? 32) || (code c =? 9) || (code c =? 10) || (code c =? 13).

Definition is_digit (c : ascii) : bool :=
  (48 <=? code c) && (code c <=? 57).

Fixpoint skip_ws (s : string) : string :=
  match s with
  | String c rest => if is_json_space c then skip_ws rest else s
  | EmptyString => s
  end.

(** The character an escape sequence stands for. *)
Definition unescape (c : ascii) : option ascii :=
  if (code c =? c_quote) || (code c =? c_backslash) || (code c =? 47) then Some c
  else if code c =? 98 then Some (ascii_of_N 8)
  else if code c =? 102 then Some (ascii_of_N 12)
  else if code c =? 110 then Some (ascii_of_N 10)
  else if code c =? 114 then Some (ascii_of_N 13)
  else if code c =? 116 then Some (ascii_of_N 9)
  else None.

(** The text after an opening quote: the string and what follows the
    closing quote. *)
Fixpoint parse_chars (s : string) : option (string * string) :=
  match s with
  | EmptyString => None
  | String c rest =>
      if code c =? c_quote then Some (EmptyString, rest)
      else if code c =? c_backslash then
        match rest with
        | String e rest' =>
            match unescape e, parse_chars rest' with
            | Some ch, Some (str, tl) => Some (String ch str, tl)
            | _, _ => None
            end
        | EmptyString => None
        end
      else if code c <? 32 then None
      else
        match parse_chars rest with
        | Some (str, tl) => Some (String c str, tl)
        | None => None
        end
  end.

Fixpoint parse_digits (acc : Z) (s : string) : Z * string :=
  match s with
  | String c rest =>
      if is_digit c then parse_digits (acc * 10 + Z.of_N (code c - 48))%Z rest
      else (acc, s)
  | EmptyString => (acc, s)
  end.

(** An integer literal: no leading zero, no fraction, no exponent. *)
Definition parse_int (s : string) : option (Z * string) :=
  match s with
  | String c rest =>
      if negb (is_digit c) then None
      else
        let '(n, tl) := parse_digits 0%Z s in
        let leading_zero :=
          (code c =? 48) &&
          match rest with String d _ => is_digit d | EmptyString => false end in
        let continues :=
          match tl with
          | String d _ => (code d =? 46) || (code d =? 101) || (code d =? 69)
          | EmptyString => false
          end in
        if leading_zero || continues then None else Some (n, tl)
  | EmptyString => None
  end.

Definition parse_number (s : string) : option (JSValue * string) :=
  match s with
  | String c rest =>
      if code c =? 45 then
        match parse_int rest with
        | Some (n, tl) => Some (JNum (inject_Z (- n)), tl)
        | None => None
        end
      else
        match parse_int s with
        | Some (n, tl) => Some (JNum (inject_Z n), tl)
        | None => None
        end
  | EmptyString => None
  end.

(** [s] starts with [word]; what follows it. *)
Fixpoint expect (word s : string) : option string :=
  match word, s with
  | EmptyString, _ => Some s
  | String a word', String b s' => if Ascii.eqb a b then expect word' s' else None
  | String _ _, EmptyString => None
  end.

(** Assigning a property: an existing name keeps its place and takes the
    new value. *)
Fixpoint assign (k : string) (v : JSValue) (fields : list (string * JSValue))
  : list (string * JSValue) :=
  match fields with
  | [] => [(k, v)]
  | (k', v') :: rest =>
      if String.eqb k k' then (k', v) :: rest else (k', v') :: assign k v rest
  end.

Fixpoint parse_value (fuel : nat) (s : string) : option (JSValue * string) :=
  match fuel with
  | O => None
  | S fuel' =>
      match skip_ws s with
      | EmptyString => None
      | String c rest =>
          if code c =? 123 then
            match skip_ws rest with
            | String d rest' =>
                if code d =? 125 then Some (JObj [], rest')
                else parse_members fuel' rest []
            | EmptyString => None
            end
          else if code c =? 91 then
            match skip_ws rest with
            | String d rest' =>
                if code d =? 93 then Some (JArr [], rest')
                else parse_items fuel' rest []
            | EmptyString => None
            end
          else if code c =? c_quote then
            match parse_chars rest with
            | Some (str, tl) => Some (JStr str, tl)
            | None => None
            end
          else if code c =? 116 then
            option_map (pair (JBool true)) (expect "rue" rest)
          else if code c =? 102 then
            option_map (pair (JBool false)) (expect "alse" rest)
          else if code c =? 110 then
            option_map (pair JNull) (expect "ull" rest)
          else parse_number (String c rest)
      end
  end
with parse_items (fuel : nat) (s : string) (acc : list JSValue)
  : option (JSValue * string) :=
  match fuel with
  | O => None
  | S fuel' =>
      match parse_value fuel' s with
      | Some (v, tl) =>
          match skip_ws tl with
          | String c rest =>
              if code c =? 44 then parse_items fuel' rest (acc ++ [v])
              else if code c =? 93 then Some (JArr (acc ++ [v]), rest)
              else None
          | EmptyString => None
          end
      | None => None
      end
  end
with parse_members (fuel : nat) (s : string) (acc : list (string * JSValue))
  : option (JSValue * string) :=
  match fuel with
  | O => None
  | S fuel' =>
      match skip_ws s with
      | String q rest =>
          if code q =? c_quote then
            match parse_chars rest with
            | Some (k, tl) =>
                match skip_ws tl with
                | String c rest' =>
                    if code c =? 58 then
                      match parse_value fuel' rest' with
                      | Some (v, tl') =>
                          match skip_ws tl' with
                          | String e rest'' =>
                              if code e =? 44 then
                                parse_members fuel' rest'' (assign k v acc)
                              else if code e =? 125 then
                                Some (JObj (assign k v acc), rest'')
                              else None
                          | EmptyString => None
                          end
                      | None => None
                      end
                    else None
                | EmptyString => None
                end
            | None => None
            end
          else None
      | EmptyString => None
      end
  end.

Definition JSON_parse (s : string) : option JSValue :=
  match parse_value (S (String.length s)) s with
  | Some (v, tl) =>
      match skip_ws tl with
      | EmptyString => Some v
      | String _ _ => None
      end
  | None => None
  end.

(** *** Printing *)

Definition print_int (n : Z) : string :=
  NilZero.string_of_int (Z.to_int n).

(** An integer is printed in decimal, which is all the parser above
    produces; another rational is printed as the integer below it. *)
Definition print_number (q : Q) : string :=
  print_int (Qnum q / Zpos (Qden q))%Z.

Fixpoint escape (s : string) : string :=
  match s with
  | EmptyString => EmptyString
  | String c rest =>
      let bs := ascii_of_N c_backslash in
      if (code c =? c_quote) || (code c =? c_backslash) then
        String bs (String c (escape rest))
      else if code c =? 8 then String bs (String "b" (escape rest))
      else if code c =? 12 then String bs (String "f" (escape rest))
      else if code c =? 10 then String bs (String "n" (escape rest))
      else if code c =? 13 then String bs (String "r" (escape rest))
      else if code c =? 9 then String bs (String "t" (escape rest))
      else String c (escape rest)
  end.

Definition quoted (s : string) : string :=
  String (ascii_of_N c_quote) (escape s ++ String (ascii_of_N c_quote) EmptyString).

Fixpoint JSON_stringify (v : JSValue) : string :=
  match v with
  | JUndefined | JNull => "null"
  | JBool true => "true"
  | JBool false => "false"
  | JNum q => print_number q
  | JStr s => quoted s
  | JArr items => "[" ++ String.concat "," (map JSON_stringify items) ++ "]"
  | JObj fields =>
      "{" ++ String.concat ","
               (map (fun kv => match kv with
                               | (k, x) => quoted k ++ ":" ++ JSON_stringify x
                               end) fields)
          ++ "}"
  end.

(** *** Coercions *)

Fixpoint ToString (v : JSValue) : string :=
  match v with
  | JUndefined => "undefined"
  | JNull => "null"
  | JBool true => "true"
  | JBool false => "false"
  | JNum q => print_number q
  | JStr s => s
  | JArr items =>
      String.concat ","
        (map (fun x => if nullish x then EmptyString else ToString x) items)
  | JObj _ => "[object Object]"
  end.

Fixpoint drop_spaces (s : string) : string :=
  match s with
  | String c rest => if is_space c then drop_spaces rest else s
  | EmptyString => s
  end.

(** The numeric value of a text: blank is zero, a decimal integer is
    itself, anything else is not a number. *)
Definition number_of_string (s : string) : option Q :=
  match drop_spaces s with
  | EmptyString => Some 0%Q
  | String c rest =>
      let '(neg, body) :=
        if code c =? 45 then (true, rest)
        else if code c =? 43 then (false, rest)
        else (false, String c rest) in
      match body with
      | String d _ =>
          if is_digit d then
            let '(n, tl) := parse_digits 0%Z body in
            match drop_spaces tl with
            | EmptyString => Some (inject_Z (if neg then - n else n))
            | String _ _ => None
            end
          else None
      | EmptyString => None
      end
  end.

Definition ToNumber (v : JSValue) : option Q :=
  match v with
  | JUndefined => None
  | JNull => Some 0%Q
  | JBool true => Some 1%Q
  | JBool false => Some 0%Q
  | JNum q => Some q
  | JStr s => number_of_string s
  | JArr _ | JObj _ => number_of_string (ToString v)
  end.

Definition platform : Platform :=
  Build_Platform atob JSON_parse JSON_stringify ToString ToNumber eq_refl.

End Reference.

(** ** Sample inputs

    Tokens are written as the browser stores them: three segments, the
    middle one the base64url text of the claims. *)

Module Sample.

(** Middle segment: email a@b.com, role STUDENT, exp 1000. *)
Definition expired_token : string :=
  "h.eyJlbWFpbCI6ImFAYi5jb20iLCJyb2xlIjoiU1RVREVOVCIsImV4cCI6MTAwMH0.s".

Definition expired_claims : JSValue :=
  JObj [("email", JStr "a@b.com"); ("role", JStr "STUDENT"); ("exp", JNum 1000)].

(** Middle segment: email a@b.com, role STUDENT, exp 9999999999. *)
Definition valid_token : string :=
  "h.eyJlbWFpbCI6ImFAYi5jb20iLCJyb2xlIjoiU1RVREVOVCIsImV4cCI6OTk5OTk5OTk5OX0.s".

Definition valid_claims : JSValue :=
  JObj [("email", JStr "a@b.com"); ("role", JStr "STUDENT");
        ("exp", JNum 9999999999)].

(** Middle segment: an object whose only member is exp, with value 0. *)
Definition zero_exp_token : string := "h.eyJleHAiOjB9.s".

Definition zero_exp_claims : JSValue := JObj [("exp", JNum 0)].

(** A clock reading in milliseconds (November 2023). *)
Definition now : Z := 1700000000000.

Definition admin_record : JSValue :=
  JObj [("id", JNum 5); ("email", JStr "x@y.com"); ("name", JStr "X");
        ("role", JStr "ADMIN")].

Definition student : User :=
  mkUser (JNum 1) (JStr "a@b.com") (JStr "A") (JStr "STUDENT").

(** Storage holding a token and nothing else. *)
Definition only_token (tok : string) : gmap string string :=
  {[ "token" := tok ]}.

(** The application on the login page, hydration finished, nobody
    signed in. *)
Definition signed_out : World := mkWorld ∅ None false ["/login"].

(** A student signed in, hydration finished. *)
Definition signed_in : World :=
  mkWorld (only_token valid_token) (Some student) false ["/student"].

(** A login response that carries a token but no user record. *)
Definition bare_response : FetchOutcome :=
  Response true (Some (JObj [("access_token", JStr "t")])).

(** The login response of the scenario: a token and an administrator. *)
Definition admin_response : FetchOutcome :=
  Response true (Some (JObj [("access_token", JStr "t"); ("user", admin_record)])).

(** The text [saveSession] stores for the administrator record. *)
Definition admin_text : string := Reference.JSON_stringify admin_record.

(** Storage holding an expired token and a cached administrator. *)
Definition cached_expired : gmap string string :=
  <["user" := admin_text]> (only_token expired_token).

(** Storage holding a cached administrator and no token. *)
Definition cached_only : gmap string string := {[ "user" := admin_text ]}.

(** The body of [admin_response]. *)
Definition admin_body : JSValue :=
  JObj [("access_token", JStr "t"); ("user", admin_record)].

(** A login body with a decodable token and no user record. *)
Definition token_body : JSValue := JObj [("access_token", JStr valid_token)].

(** A user record without a role, and a login body carrying it with a
    token that does not decode. *)
Definition partial_record : list (string * JSValue) :=
  [("email", JStr "x@y.com")].

Definition partial_body : JSValue :=
  JObj [("access_token", JStr "t"); ("user", JObj partial_record)].

(** The middle segment of [valid_token]. *)
Definition valid_middle : string :=
  "eyJlbWFpbCI6ImFAYi5jb20iLCJyb2xlIjoiU1RVREVOVCIsImV4cCI6OTk5OTk5OTk5OX0".


(** The state of the dashboard page when it mounts. *)
Definition dashboard_mounted : DashboardState := mkDashboardState true "".

End Sample.

(** * Properties *)

Section Properties.

Context {platform : Platform}.

(** ** Values *)

Lemma Qlt_bool_iff (a b : Q) : Qlt_bool a b = true <-> (a < b)%Q.
Proof.
  unfold Qlt_bool. rewrite negb_true_iff. split.
  - intros H. apply Qnot_le_lt. intros Hle.
    apply Qle_bool_iff in Hle. congruence.
  - intros H. destruct (Qle_bool b a) eqn:E; [|reflexivity].
    apply Qle_bool_iff in E. exfalso. exact (Qlt_not_le _ _ H E).
Qed.

Lemma truthy_num (q : Q) : truthy (JNum q) = true <-> ~ (q == 0)%Q.
Proof.
  simpl. rewrite negb_true_iff. split.
  - intros H Heq. apply Qeq_bool_iff in Heq. congruence.
  - intros H. destruct (Qeq_bool q 0) eqn:E; [|reflexivity].
    apply Qeq_bool_iff in E. contradiction.
Qed.

Lemma truthy_not_nullish (v : JSValue) : truthy v = true -> nullish v = false.
Proof. destruct v; simpl; congruence. Qed.

Lemma get_truthy_not_nullish (v : JSValue) (k : string) :
  truthy (get v k) = true -> nullish v = false.
Proof. destruct v; simpl; congruence. Qed.

Lemma present_nonempty (raw : string) :
  present (Some raw) = true <-> raw <> "".
Proof.
  simpl. rewrite negb_true_iff. split.
  - intros H ->. discriminate.
  - intros H. destruct (String.eqb_spec raw ""); congruence.
Qed.

(** ** Token codec *)

Lemma token_payload_nonempty (raw : string) (p : JSValue) :
  token_payload raw = Some p -> present (Some raw) = true.
Proof.
  intros H. apply present_nonempty. intros ->.
  unfold token_payload in H. simpl in H. discriminate.
Qed.

Lemma prop_not_nullish (v : JSValue) (k : string) (w : World) :
  nullish v = false -> prop v k w = (Ret (get v k), w).
Proof. intros H. unfold prop. rewrite H. reflexivity. Qed.

Lemma expired_spec (now : Z) (p : JSValue) (w : World) :
  expired now p w = (Ret (expired_b now p), w).
Proof.
  unfold expired, expired_b.
  destruct (truthy (get p "exp")) eqn:E; [|reflexivity].
  unfold bind. rewrite prop_not_nullish by (eapply get_truthy_not_nullish; eauto).
  reflexivity.
Qed.

Lemma readJwt_spec (now : Z) (w : World) :
  readJwt now w = (Ret (readJwt_value now (storage w !! "token")), w).
Proof.
  unfold readJwt, readJwt_value, bind, getItem.
  destruct (storage w !! "token") as [raw|]; simpl; [|reflexivity].
  destruct (String.eqb raw ""); simpl; [reflexivity|].
  unfold try_catch, token_payload, bind, decodeBase64UrlJSON, bind, lift_option.
  destruct (length (split_dot raw) <? 2)%nat; [reflexivity|].
  destruct (atob _) as [json|]; simpl; [|reflexivity].
  destruct (JSON_parse json) as [p|]; simpl; [|reflexivity].
  rewrite expired_spec. destruct (expired_b now p); reflexivity.
Qed.

(** [readJwt] does not throw and leaves the application untouched.  It
    returns [null] or the value the token decodes to, and it returns
    [null] whenever there is no token or a decoding step fails (fewer
    than two segments, malformed base64, bytes that are not JSON). *)
Theorem readJwt_total (now : Z) (w : World) :
  exists v : JSValue,
    readJwt now w = (Ret v, w) /\
    (v = JNull \/
     exists raw, storage w !! "token" = Some raw /\ token_payload raw = Some v) /\
    (storage w !! "token" = None -> v = JNull) /\
    (forall raw, storage w !! "token" = Some raw ->
                 token_payload raw = None -> v = JNull).
Proof.
  exists (readJwt_value now (storage w !! "token")).
  split; [apply readJwt_spec|].
  unfold readJwt_value.
  destruct (storage w !! "token") as [raw|].
  - destruct (String.eqb raw "").
    + repeat split; auto.
    + destruct (token_payload raw) as [p|] eqn:Ep.
      * destruct (expired_b now p).
        -- repeat split; auto.
        -- split; [right; eauto|]. split; [discriminate|].
           intros raw' [= <-]. congruence.
      * repeat split; auto.
  - repeat split; auto.
Qed.

Lemma expired_b_num (now : Z) (p : JSValue) (e : Q) :
  get p "exp" = JNum e ->
  expired_b now p = true <-> (~ (e == 0)%Q /\ (e < seconds now)%Q).
Proof.
  intros He. unfold expired_b, js_gt. rewrite He. simpl js_to_number.
  rewrite andb_true_iff, truthy_num, Qlt_bool_iff. reflexivity.
Qed.

Lemma readJwt_expired_null_value (now : Z) (st : gmap string string)
    (raw : string) (p : JSValue) (e : Q) :
  st !! "token" = Some raw ->
  token_payload raw = Some p ->
  get p "exp" = JNum e ->
  ~ (e == 0)%Q ->
  (e < seconds now)%Q ->
  readJwt_value now (st !! "token") = JNull.
Proof.
  intros Htok Hp He Hnz Hlt.
  rewrite Htok. unfold readJwt_value. rewrite Hp.
  destruct (String.eqb raw ""); [reflexivity|].
  replace (expired_b now p) with true; [reflexivity|].
  symmetry. apply (expired_b_num now p e He). auto.
Qed.

(** The part of C9 the code keeps: when the stored token decodes to
    claims whose [exp] is a number other than zero and strictly less
    than the current time in seconds, [readJwt] returns [null]. *)
Theorem readJwt_expired_null (now : Z) (w : World) (raw : string)
    (p : JSValue) (e : Q) :
  storage w !! "token" = Some raw ->
  token_payload raw = Some p ->
  get p "exp" = JNum e ->
  ~ (e == 0)%Q ->
  (e < seconds now)%Q ->
  readJwt now w = (Ret JNull, w).
Proof.
  intros Htok Hp He Hnz Hlt.
  rewrite readJwt_spec.
  rewrite (readJwt_expired_null_value now (storage w) raw p e) by assumption.
  reflexivity.
Qed.

(** ** Session derivation *)

Lemma seconds_mono (n1 n2 : Z) : (n1 <= n2)%Z -> (seconds n1 <= seconds n2)%Q.
Proof. intros H. unfold seconds, Qle. simpl. lia. Qed.

Lemma expired_b_undefined (now : Z) (p : JSValue) :
  get p "exp" = JUndefined -> expired_b now p = false.
Proof. intros H. unfold expired_b. rewrite H. reflexivity. Qed.

Lemma expired_b_future (now : Z) (p : JSValue) (e : Q) :
  get p "exp" = JNum e -> (seconds now < e)%Q -> expired_b now p = false.
Proof.
  intros He Hlt. destruct (expired_b now p) eqn:E; [|reflexivity].
  apply (expired_b_num now p e He) in E. destruct E as [_ E].
  exfalso. exact (Qlt_irrefl _ (Qlt_trans _ _ _ Hlt E)).
Qed.

(** The effect when no cached user record is found: it follows what
    [readJwt] returned. *)
Lemma hydrate_no_cache (n1 n2 : Z) (st : gmap string string) (h : list string) :
  present (st !! "user") = false ->
  hydrate n1 n2 (mount st h) =
    (Ret tt,
     let p := readJwt_value n1 (st !! "token") in
     if expired_b n2 p then
       mkWorld (delete "user" (delete "token" st)) None false h
     else if truthy (get p "email") && truthy (get p "role") then
       mkWorld st (Some (user_of_claims p)) false h
     else mkWorld st None false h).
Proof.
  intros Hu.
  unfold hydrate, try_finally, try_catch, bind, getItem, mount. simpl.
  rewrite Hu, readJwt_spec. simpl. rewrite expired_spec.
  destruct (expired_b n2 _); [reflexivity|].
  destruct (truthy (get _ "email")) eqn:Ee; [|reflexivity].
  destruct (truthy (get _ "role")) eqn:Er; [|reflexivity].
  simpl.
  repeat rewrite prop_not_nullish by (eapply get_truthy_not_nullish; eauto).
  reflexivity.
Qed.

Lemma prop_or_not_nullish (v : JSValue) (k1 k2 : string) (w : World) :
  nullish v = false ->
  prop_or v k1 k2 w = (Ret (coalesce (get v k1) (get v k2)), w).
Proof.
  intros H. unfold prop_or, bind, coalesce. rewrite prop_not_nullish by exact H.
  destruct (nullish (get v k1)); [apply prop_not_nullish; exact H | reflexivity].
Qed.

(** The effect when a cached user record is found and parses to a value
    other than [null]. *)
Lemma hydrate_cached (n1 n2 : Z) (st : gmap string string) (h : list string)
    (rawUser : string) (parsed : JSValue) :
  st !! "user" = Some rawUser ->
  rawUser <> "" ->
  JSON_parse rawUser = Some parsed ->
  nullish parsed = false ->
  hydrate n1 n2 (mount st h) =
    (Ret tt,
     mkWorld st
       (Some (mkUser (coalesce (coalesce (get parsed "userId") (get parsed "id"))
                               (JNum 0))
                     (coalesce (get parsed "email") (JStr ""))
                     (coalesce (get parsed "name") (JStr ""))
                     (get parsed "role")))
       false h).
Proof.
  intros Hu Hne Hp Hn.
  unfold hydrate, try_finally, try_catch, bind, getItem, mount. simpl.
  rewrite Hu. apply present_nonempty in Hne. rewrite Hne. simpl.
  rewrite Hp. simpl. rewrite prop_or_not_nullish by exact Hn.
  repeat rewrite prop_not_nullish by exact Hn.
  reflexivity.
Qed.

(** C1. Where the code departs from the claim: when the stored token
    decodes to claims whose non-zero expiry is strictly less than the
    clock reading taken in [readJwt], and no user record is cached, the
    effect leaves the current user [null] and finishes hydration, but
    the storage is exactly what it was: the token slot is not removed.
    [readJwt] has already turned the expired claims into [null], so the
    branch of the effect that clears the session is not taken. *)
Theorem hydrate_expired_keeps_storage (n1 n2 : Z) (st : gmap string string)
    (h : list string) (raw : string) (p : JSValue) (e : Q) :
  st !! "user" = None ->
  st !! "token" = Some raw ->
  token_payload raw = Some p ->
  get p "exp" = JNum e ->
  ~ (e == 0)%Q ->
  (e < seconds n1)%Q ->
  hydrate n1 n2 (mount st h) = (Ret tt, mkWorld st None false h) /\
  storage (snd (hydrate n1 n2 (mount st h))) !! "token" = Some raw.
Proof.
  intros Hu Htok Hp He Hnz Hlt.
  assert (Hv : readJwt_value n1 (st !! "token") = JNull).
  { pose proof (readJwt_expired_null_value n1 st raw p e Htok Hp He Hnz Hlt).
    assumption. }
  rewrite hydrate_no_cache by (rewrite Hu; reflexivity).
  rewrite Hv. simpl. split; [reflexivity | exact Htok].
Qed.

(** C4. With no cached user record, when the stored token decodes to
    claims whose expiry is absent or strictly after the current time and
    whose email and role are both present (they pass the test of the
    guard, as any non-empty string does), the effect sets the current
    user to those claims: email and role as they are, the identifier
    from [sub] or 0, the name from [name] or the empty string.  The
    hydration flag becomes finished and the storage is unchanged.  The
    two clock readings are those of [readJwt] and of the effect. *)
Theorem hydrate_valid_claims (n1 n2 : Z) (st : gmap string string)
    (h : list string) (raw : string) (p : JSValue) :
  (n1 <= n2)%Z ->
  st !! "user" = None ->
  st !! "token" = Some raw ->
  token_payload raw = Some p ->
  (get p "exp" = JUndefined \/
   exists e : Q, get p "exp" = JNum e /\ (seconds n2 < e)%Q) ->
  truthy (get p "email") = true ->
  truthy (get p "role") = true ->
  hydrate n1 n2 (mount st h) =
    (Ret tt,
     mkWorld st
       (Some (mkUser (coalesce (get p "sub") (JNum 0))
                     (get p "email")
                     (coalesce (get p "name") (JStr ""))
                     (get p "role")))
       false h).
Proof.
  intros Hclock Hu Htok Hp Hexp Hemail Hrole.
  assert (Hfresh : forall n, (n <= n2)%Z -> expired_b n p = false).
  { intros n Hn. destruct Hexp as [Habs | [e [He Hlt]]].
    - apply expired_b_undefined; exact Habs.
    - apply (expired_b_future n p e He).
      eapply Qle_lt_trans; [apply seconds_mono; exact Hn | exact Hlt]. }
  rewrite hydrate_no_cache by (rewrite Hu; reflexivity).
  rewrite Htok. unfold readJwt_value. rewrite Hp.
  pose proof (token_payload_nonempty raw p Hp) as Hne.
  simpl in Hne. apply negb_true_iff in Hne. rewrite Hne.
  rewrite (Hfresh n1 Hclock). simpl.
  rewrite (Hfresh n2) by lia. rewrite Hemail, Hrole. reflexivity.
Qed.

Lemma saveSession_spec (token usr : JSValue) (w : World) :
  saveSession token usr w =
    (Ret tt,
     mkWorld (if truthy usr then
                <["user" := JSON_stringify usr]>
                  (<["token" := js_to_string token]> (storage w))
              else <["token" := js_to_string token]> (storage w))
             (user w) (hydrating w) (history w)).
Proof.
  unfold saveSession, bind, setItem. simpl.
  destruct (truthy usr); reflexivity.
Qed.

(** C3. Round trip: after [saveSession] has written a token and a user
    record carrying an email and a role, the effect run on the resulting
    storage sets a current user with the email and the role of that
    record.  The JSON functions of the platform are required to give the
    record back when it is printed and parsed again. *)
Theorem saveSession_hydrate_roundtrip (n1 n2 : Z) (w : World) (h : list string)
    (token : string) (fields : list (string * JSValue)) :
  nullish (get (JObj fields) "email") = false ->
  JSON_parse (JSON_stringify (JObj fields)) = Some (JObj fields) ->
  exists (w' : World) (u : User),
    hydrate n1 n2
      (mount (storage (snd (saveSession (JStr token) (JObj fields) w))) h)
      = (Ret tt, w') /\
    user w' = Some u /\
    email u = get (JObj fields) "email" /\
    role u = get (JObj fields) "role" /\
    hydrating w' = false.
Proof.
  intros He Hrt.
  rewrite saveSession_spec. simpl snd. simpl storage.
  assert (Hne : JSON_stringify (JObj fields) <> "").
  { intros Heq. rewrite Heq, JSON_parse_empty in Hrt. discriminate. }
  erewrite hydrate_cached;
    [ | apply lookup_insert_eq | exact Hne | exact Hrt | reflexivity ].
  eexists. eexists. split; [reflexivity|].
  cbn [user email role hydrating]. split; [reflexivity|].
  unfold coalesce. rewrite He. auto.
Qed.

(** C10. [saveSession] called without a user record (the argument is
    missing, [null], or otherwise fails the test [if (user)]) writes the
    token slot only: the user slot, like every other key, keeps the value
    it had before the call. *)
Theorem saveSession_without_user (token usr : JSValue) (w : World) :
  truthy usr = false ->
  saveSession token usr w =
    (Ret tt,
     mkWorld (<["token" := js_to_string token]> (storage w))
             (user w) (hydrating w) (history w)) /\
  storage (snd (saveSession token usr w)) !! "token" = Some (js_to_string token) /\
  storage (snd (saveSession token usr w)) !! "user" = storage w !! "user" /\
  (forall k : string, k <> "token" ->
     storage (snd (saveSession token usr w)) !! k = storage w !! k).
Proof.
  intros Hu. rewrite saveSession_spec, Hu. simpl.
  split; [reflexivity|]. split; [apply lookup_insert_eq|].
  split; [apply lookup_insert_ne; discriminate|].
  intros k Hk. apply lookup_insert_ne. congruence.
Qed.

(** ** Sign-in *)

Lemma from_body_spec (data : JSValue) (w : World) :
  nullish data = false ->
  from_body data w = (Ret (body_locals data), w).
Proof.
  intros Hd. unfold from_body, body_locals.
  destruct (truthy (get data "user")) eqn:Hu; [|reflexivity].
  apply truthy_not_nullish in Hu.
  unfold bind. rewrite (prop_not_nullish data) by exact Hd.
  repeat rewrite (prop_not_nullish (get data "user")) by exact Hu.
  rewrite prop_or_not_nullish by exact Hu. reflexivity.
Qed.

Lemma from_token_spec (now : Z) (l : Locals) (w : World) :
  from_token now l w =
    (let p := readJwt_value now (storage w !! "token") in
     if needs_token l then
       if truthy p then Ret (token_locals l p) else Throw (Error "Invalid token")
     else Ret l,
     w).
Proof.
  unfold from_token, needs_token.
  destruct (negb (truthy (l_emailOut l)) || negb (truthy (l_role l)));
    [|reflexivity].
  unfold bind at 1. rewrite readJwt_spec.
  set (p := readJwt_value now (storage w !! "token")).
  destruct (truthy p) eqn:Hp; [|reflexivity].
  apply truthy_not_nullish in Hp. cbn [negb].
  unfold token_locals, bind.
  destruct (negb (truthy (l_emailOut l)));
    destruct (negb (truthy (l_nameOut l)));
    destruct (negb (truthy (l_role l)));
    destruct (negb (truthy (l_userId l)));
    repeat (first [ rewrite prop_not_nullish by exact Hp
                  | progress (unfold ret; cbn beta iota) ]);
    reflexivity.
Qed.

(** What [signIn] does with an OK response whose body is a value other
    than [null]. *)
Lemma signIn_ok_spec (em pw : string) (data : JSValue) (now : Z) (w : World) :
  nullish data = false ->
  signIn em pw (Response true (Some data)) now w =
    let w1 := snd (saveSession (get data "access_token") (get data "user") w) in
    let l := body_locals data in
    let p := readJwt_value now (storage w1 !! "token") in
    if needs_token l && negb (truthy p) then
      (Throw (Error "Invalid token"), w1)
    else
      let l' := if needs_token l then token_locals l p else l in
      (Ret tt,
       mkWorld (storage w1) (Some (user_of_locals l')) (hydrating w)
               (landing (l_role l') :: tail (history w))).
Proof.
  intros Hd. unfold signIn. cbn [negb].
  unfold bind at 1. unfold lift_option, ret.
  unfold bind at 1. rewrite (prop_not_nullish data) by exact Hd.
  unfold bind at 1. rewrite (prop_not_nullish data) by exact Hd.
  unfold bind at 1. rewrite saveSession_spec.
  unfold bind at 1. rewrite from_body_spec by exact Hd.
  unfold bind at 1. rewrite from_token_spec.
  cbn [snd storage]. cbn zeta.
  destruct (needs_token (body_locals data)); cbn [andb].
  - destruct (truthy (readJwt_value now _)); reflexivity.
  - reflexivity.
Qed.

(** C2, amended. [signIn] throws one error or completes, and where it
    stops decides what has been stored.  A rejected request, a response
    that is not OK, a body that is not JSON or is [null]: it throws and
    the application is as before the call.  Otherwise [saveSession] has
    run on the token and the user record of the body, and then either
    the email or the role is still missing and the stored token gives no
    claims, in which case it throws the Invalid token error with the
    new token (and user record) left in storage and the current user
    unchanged; or it completes, with the current user set and the
    history entry replaced by the landing page of the role. *)
Theorem signIn_outcomes (em pw : string) (res : FetchOutcome) (now : Z)
    (w : World) :
  match res with
  | Response true (Some data) =>
      if nullish data then
        signIn em pw res now w = (Throw TypeError, w)
      else
        let w1 := snd (saveSession (get data "access_token") (get data "user") w) in
        let l := body_locals data in
        let p := readJwt_value now (storage w1 !! "token") in
        if needs_token l && negb (truthy p) then
          signIn em pw res now w = (Throw (Error "Invalid token"), w1)
        else
          exists u : User,
            signIn em pw res now w =
              (Ret tt,
               mkWorld (storage w1) (Some u) (hydrating w)
                       (landing (role u) :: tail (history w)))
  | _ => exists e : JSError, signIn em pw res now w = (Throw e, w)
  end.
Proof.
  destruct res as [|ok json]; [eexists; reflexivity|].
  destruct ok; [|eexists; reflexivity].
  destruct json as [data|]; [|eexists; reflexivity].
  destruct (nullish data) eqn:Hd.
  - unfold signIn, bind, lift_option, ret, prop. simpl. rewrite Hd. reflexivity.
  - rewrite signIn_ok_spec by exact Hd. cbn zeta.
    destruct (needs_token (body_locals data) && negb (truthy _)).
    + reflexivity.
    + eexists (user_of_locals _). reflexivity.
Qed.

(** ** Sign-out *)

Lemma signOut_spec (w : World) :
  signOut w =
    (Ret tt,
     mkWorld (delete "user" (delete "token" (storage w))) None (hydrating w)
             ("/login" :: tail (history w))).
Proof. reflexivity. Qed.

(** C6. [signOut] cannot fail and is idempotent: it returns normally
    with no current user and both storage slots empty, and running it a
    second time leaves exactly the state the first run produced. *)
Theorem signOut_idempotent (w : World) :
  fst (signOut w) = Ret tt /\
  user (snd (signOut w)) = None /\
  storage (snd (signOut w)) !! "token" = None /\
  storage (snd (signOut w)) !! "user" = None /\
  signOut (snd (signOut w)) = signOut w.
Proof.
  rewrite !signOut_spec. cbn [fst snd user storage hydrating history tail].
  split; [reflexivity|]. split; [reflexivity|].
  split; [rewrite lookup_delete_ne by discriminate; apply lookup_delete_eq|].
  split; [apply lookup_delete_eq|].
  f_equal. f_equal.
  rewrite (delete_delete (delete "token" (storage w)) "token" "user").
  rewrite !delete_delete_eq. reflexivity.
Qed.

(** ** Route guard *)

Lemma includes_spec (l : list Role) (v : JSValue) :
  includes l v = true <-> exists r : Role, In r l /\ v = JStr (role_name r).
Proof.
  unfold includes. split.
  - destruct v; try discriminate. intros H.
    apply existsb_exists in H. destruct H as [r [Hin Heq]].
    apply String.eqb_eq in Heq. exists r. split; [exact Hin | congruence].
  - intros [r [Hin ->]]. apply existsb_exists. exists r.
    split; [exact Hin | apply String.eqb_refl].
Qed.

(** C7. While the hydration flag is true the guard returns [null]:
    neither the guarded content nor a redirect, whatever the user, the
    token and the allow-list are. *)
Theorem PrivateRoute_hydrating {C : Type} (children : C)
    (roles : option (list Role)) (w : World) :
  hydrating w = true ->
  PrivateRoute children roles w = Nothing.
Proof. intros H. unfold PrivateRoute. rewrite H. reflexivity. Qed.

(** C8. Once hydration is finished and both the current user and the
    token exist: with an allow-list that does not contain the role of
    the user the guard redirects to [/dashboard] and does not render the
    guarded content; with no allow-list, or with one that contains the
    role, it renders the guarded content as it is. *)
Theorem PrivateRoute_roles {C : Type} (children : C)
    (roles : option (list Role)) (w : World) (u : User) :
  hydrating w = false ->
  user w = Some u ->
  present (storage w !! "token") = true ->
  (forall l : list Role,
     roles = Some l ->
     (forall r : Role, In r l -> role u <> JStr (role_name r)) ->
     PrivateRoute children roles w = Navigate "/dashboard" true) /\
  ((roles = None \/
    exists (l : list Role) (r : Role),
      roles = Some l /\ In r l /\ role u = JStr (role_name r)) ->
   PrivateRoute children roles w = Fragment children).
Proof.
  intros Hh Hu Ht. unfold PrivateRoute. rewrite Hh, Hu, Ht. simpl. split.
  - intros l -> Hnot.
    destruct (includes l (role u)) eqn:E; [|reflexivity].
    apply includes_spec in E. destruct E as [r [Hin Heq]].
    exfalso. exact (Hnot r Hin Heq).
  - intros [-> | [l [r [-> [Hin Heq]]]]]; [reflexivity|].
    replace (includes l (role u)) with true; [reflexivity|].
    symmetry. apply includes_spec. eauto.
Qed.

End Properties.

(** * The properties on the reference platform *)

Section Evaluation.

Import Sample.

#[local] Existing Instance Reference.platform.

Example hydrate_expired_keeps_storage_witness :
  hydrate now now (mount (only_token expired_token) ["/"])
    = (Ret tt, mkWorld (only_token expired_token) None false ["/"]) /\
  storage (snd (hydrate now now (mount (only_token expired_token) ["/"])))
    !! "token" = Some expired_token.
Proof.
  apply (hydrate_expired_keeps_storage now now (only_token expired_token)
           ["/"] expired_token expired_claims 1000).
  - reflexivity.
  - reflexivity.
  - vm_compute. reflexivity.
  - reflexivity.
  - vm_compute. lia.
  - vm_compute. reflexivity.
Defined.

(** C2 as stated fails: an OK response with a token and no user record
    makes [signIn] throw the Invalid token error, and the token slot,
    empty before the call, now holds the new token. *)
Example signIn_invalid_token_persists :
  storage signed_out !! "token" = None /\
  signIn "x@y.com" "secret" bare_response now signed_out
    = (Throw (Error "Invalid token"),
       mkWorld (only_token "t") None false ["/login"]) /\
  storage (snd (signIn "x@y.com" "secret" bare_response now signed_out))
    !! "token" = Some "t".
Proof. repeat split; vm_compute; reflexivity. Qed.

Example saveSession_hydrate_roundtrip_witness :
  exists (w' : World) (u : User),
    hydrate now now
      (mount (storage (snd (saveSession (JStr valid_token) admin_record
                                        signed_out))) ["/"])
      = (Ret tt, w') /\
    user w' = Some u /\
    email u = JStr "x@y.com" /\
    role u = JStr "ADMIN" /\
    hydrating w' = false.
Proof.
  apply (saveSession_hydrate_roundtrip now now signed_out ["/"] valid_token
           [("id", JNum 5); ("email", JStr "x@y.com"); ("name", JStr "X");
            ("role", JStr "ADMIN")]).
  - reflexivity.
  - vm_compute. reflexivity.
Defined.

Example hydrate_valid_claims_witness :
  hydrate now now (mount (only_token valid_token) ["/"])
    = (Ret tt,
       mkWorld (only_token valid_token)
         (Some (mkUser (JNum 0) (JStr "a@b.com") (JStr "") (JStr "STUDENT")))
         false ["/"]).
Proof.
  apply (hydrate_valid_claims now now (only_token valid_token) ["/"]
           valid_token valid_claims).
  - lia.
  - reflexivity.
  - reflexivity.
  - vm_compute. reflexivity.
  - right. exists 9999999999%Q. split; [reflexivity | vm_compute; reflexivity].
  - reflexivity.
  - reflexivity.
Defined.

Example PrivateRoute_hydrating_witness :
  PrivateRoute "page" (Some [ADMIN])
    (mkWorld (only_token valid_token) (Some student) true ["/admin"])
    = Nothing.
Proof. apply PrivateRoute_hydrating. reflexivity. Defined.

Example PrivateRoute_roles_witness :
  PrivateRoute "page" (Some [INSTRUCTOR]) signed_in = Navigate "/dashboard" true /\
  PrivateRoute "page" None signed_in = Fragment "page" /\
  PrivateRoute "page" (Some [ADMIN; STUDENT]) signed_in = Fragment "page".
Proof.
  assert (Hflag : hydrating signed_in = false) by reflexivity.
  assert (Huser : user signed_in = Some student) by reflexivity.
  assert (Htok : present (storage signed_in !! "token") = true)
    by (vm_compute; reflexivity).
  split; [|split].
  - apply (PrivateRoute_roles "page" (Some [INSTRUCTOR]) signed_in student
             Hflag Huser Htok) with (l := [INSTRUCTOR]); [reflexivity|].
    intros r [<- | []]. discriminate.
  - apply (PrivateRoute_roles "page" None signed_in student Hflag Huser Htok).
    left. reflexivity.
  - apply (PrivateRoute_roles "page" (Some [ADMIN; STUDENT]) signed_in student
             Hflag Huser Htok).
    right. exists [ADMIN; STUDENT], STUDENT.
    split; [reflexivity|]. split; [right; left; reflexivity | reflexivity].
Defined.

(** At an expiry of zero the claims carry an [exp] strictly less than
    the current time, and [readJwt] returns them. *)
Example readJwt_zero_expiry_returned :
  storage (mount (only_token zero_exp_token) ["/"]) !! "token"
    = Some zero_exp_token /\
  token_payload zero_exp_token = Some zero_exp_claims /\
  get zero_exp_claims "exp" = JNum 0 /\
  (0 < seconds now)%Q /\
  readJwt now (mount (only_token zero_exp_token) ["/"])
    = (Ret zero_exp_claims, mount (only_token zero_exp_token) ["/"]) /\
  zero_exp_claims <> JNull.
Proof.
  repeat split; try (vm_compute; reflexivity). discriminate.
Qed.

Example readJwt_expired_null_witness :
  readJwt now (mount (only_token expired_token) ["/"])
    = (Ret JNull, mount (only_token expired_token) ["/"]).
Proof.
  apply (readJwt_expired_null now (mount (only_token expired_token) ["/"])
           expired_token expired_claims 1000).
  - reflexivity.
  - vm_compute. reflexivity.
  - reflexivity.
  - vm_compute. lia.
  - vm_compute. reflexivity.
Defined.

Example saveSession_without_user_witness :
  storage (snd (saveSession (JStr "t2") JUndefined
                  (mkWorld (<["user" := "cached"]> (only_token "t1"))
                           None false ["/"])))
    !! "user" = Some "cached" /\
  storage (snd (saveSession (JStr "t2") JUndefined
                  (mkWorld (<["user" := "cached"]> (only_token "t1"))
                           None false ["/"])))
    !! "token" = Some "t2".
Proof.
  destruct (saveSession_without_user (JStr "t2") JUndefined
              (mkWorld (<["user" := "cached"]> (only_token "t1"))
                       None false ["/"]) eq_refl)
    as [_ [Htok [Huser _]]].
  split; [rewrite Huser; reflexivity | exact Htok].
Defined.

(** ** Scenarios *)

(** A login response with a token and an administrator record: the
    current user is that administrator and the router lands on the admin
    area. *)
Example signIn_admin_scenario :
  signIn "x@y.com" "secret" admin_response now signed_out
    = (Ret tt,
       mkWorld (storage (snd (saveSession (JStr "t") admin_record signed_out)))
               (Some (mkUser (JNum 5) (JStr "x@y.com") (JStr "X") (JStr "ADMIN")))
               false ["/admin"]).
Proof. vm_compute. reflexivity. Qed.

(** The branch of the effect that clears the session is taken only when
    the expiry falls between the two clock readings. *)
Example hydrate_expiry_between_readings :
  hydrate 999000 1001000 (mount (only_token expired_token) ["/"])
    = (Ret tt, mkWorld ∅ None false ["/"]).
Proof. vm_compute. reflexivity. Qed.

(** A token with fewer than two segments, one whose middle segment is
    not base64, and one whose middle segment decodes to text that is not
    JSON: [readJwt] returns [null] for each. *)
Example readJwt_malformed_tokens :
  fst (readJwt now (mount (only_token "nodots") [])) = Ret JNull /\
  fst (readJwt now (mount (only_token "h.!!.s") [])) = Ret JNull /\
  fst (readJwt now (mount (only_token "h.bm90IGpzb24.s") [])) = Ret JNull.
Proof. repeat split; vm_compute; reflexivity. Qed.

End Evaluation.

(** * Further properties of the session model and its callers *)

Section MoreProperties.

Context {platform : Platform}.

(** ** Shared facts *)

Lemma present_true_inv (o : option string) :
  present o = true -> exists raw, o = Some raw /\ raw <> "".
Proof.
  destruct o as [raw|]; [|discriminate].
  intros H. exists raw. split; [reflexivity|]. apply present_nonempty. exact H.
Qed.

Lemma present_false_inv (o : option string) :
  present o = false -> o = None \/ o = Some "".
Proof.
  destruct o as [raw|]; [|auto]. simpl. intros H.
  apply negb_false_iff, String.eqb_eq in H. subst. auto.
Qed.

Lemma expired_b_null (now : Z) : expired_b now JNull = false.
Proof. reflexivity. Qed.

Lemma readJwt_value_stored (now : Z) (tok : option string) :
  readJwt_value now tok =
    if expired_b now (stored_claims tok) then JNull else stored_claims tok.
Proof.
  unfold readJwt_value, stored_claims.
  destruct tok as [raw|]; [|reflexivity].
  destruct (String.eqb raw ""); [reflexivity|].
  destruct (token_payload raw) as [p|]; reflexivity.
Qed.

(** The effect when the cached user record does not parse, or parses to
    [null]. *)
Lemma hydrate_cached_unusable (n1 n2 : Z) (st : gmap string string)
    (h : list string) (rawUser : string) :
  st !! "user" = Some rawUser ->
  rawUser <> "" ->
  (forall parsed, JSON_parse rawUser = Some parsed -> nullish parsed = true) ->
  hydrate n1 n2 (mount st h) = (Ret tt, mkWorld st None false h).
Proof.
  intros Hu Hne Hbad.
  unfold hydrate, try_finally, try_catch, bind, getItem, mount. simpl.
  rewrite Hu. apply present_nonempty in Hne. rewrite Hne. simpl.
  destruct (JSON_parse rawUser) as [parsed|] eqn:Hp; simpl; [|reflexivity].
  unfold prop_or, bind, prop. rewrite (Hbad parsed eq_refl). reflexivity.
Qed.

(** The current user after the effect, when the user slot is not empty. *)
Lemma hydrate_cached_user (n1 n2 : Z) (st : gmap string string)
    (h : list string) (rawUser : string) :
  st !! "user" = Some rawUser ->
  rawUser <> "" ->
  hydrate n1 n2 (mount st h) =
    (Ret tt,
     mkWorld st
       (match JSON_parse rawUser with
        | Some parsed =>
            if nullish parsed then None else Some (user_of_record parsed)
        | None => None
        end)
       false h).
Proof.
  intros Hu Hne.
  destruct (JSON_parse rawUser) as [parsed|] eqn:Hp.
  - destruct (nullish parsed) eqn:Hn.
    + apply (hydrate_cached_unusable n1 n2 st h rawUser Hu Hne).
      intros parsed' Hp'. congruence.
    + apply (hydrate_cached n1 n2 st h rawUser parsed Hu Hne Hp Hn).
  - apply (hydrate_cached_unusable n1 n2 st h rawUser Hu Hne).
    intros parsed' Hp'. congruence.
Qed.

(** ** Session derivation *)

(** X1. The hydration effect never throws and always ends hydration:
    whatever the storage holds and whatever the built-ins do, it returns
    normally with the flag finished and the route untouched; the storage
    is either as it was or, with no current user, without its two
    session slots. *)
Theorem hydrate_never_throws (n1 n2 : Z) (st : gmap string string)
    (h : list string) :
  exists (u : option User) (st' : gmap string string),
    hydrate n1 n2 (mount st h) = (Ret tt, mkWorld st' u false h) /\
    (st' = st \/ (u = None /\ st' = delete "user" (delete "token" st))).
Proof.
  destruct (present (st !! "user")) eqn:Hp.
  - apply present_true_inv in Hp. destruct Hp as [raw [Hu Hne]].
    rewrite (hydrate_cached_user n1 n2 st h raw Hu Hne).
    eexists. eexists. split; [reflexivity | left; reflexivity].
  - rewrite (hydrate_no_cache n1 n2 st h Hp). cbn zeta.
    destruct (expired_b n2 _).
    + eexists. eexists. split; [reflexivity | right; split; reflexivity].
    + destruct (truthy _ && truthy _);
        (eexists; eexists; split; [reflexivity | left; reflexivity]).
Qed.

(** X2. When the user slot is not empty the effect decides from that
    slot alone: the record it parses to becomes the current user, with
    no look at the token and no expiry check, and a slot that does not
    parse (or parses to [null]) gives no current user even when the
    token slot holds valid claims.  Two storages with the same user slot
    give the same current user at any clock readings, and the storage is
    left as it is. *)
Theorem hydrate_user_slot_decides (n1 n2 m1 m2 : Z)
    (st1 st2 : gmap string string) (h1 h2 : list string) (rawUser : string) :
  st1 !! "user" = Some rawUser ->
  st2 !! "user" = Some rawUser ->
  rawUser <> "" ->
  user (snd (hydrate n1 n2 (mount st1 h1))) =
    match JSON_parse rawUser with
    | Some parsed =>
        if nullish parsed then None else Some (user_of_record parsed)
    | None => None
    end /\
  user (snd (hydrate m1 m2 (mount st2 h2))) =
    user (snd (hydrate n1 n2 (mount st1 h1))) /\
  storage (snd (hydrate n1 n2 (mount st1 h1))) = st1.
Proof.
  intros Hu1 Hu2 Hne.
  rewrite (hydrate_cached_user n1 n2 st1 h1 rawUser Hu1 Hne).
  rewrite (hydrate_cached_user m1 m2 st2 h2 rawUser Hu2 Hne).
  repeat split.
Qed.

(** X3. A cached user record opens the guard whatever the token is
    worth: when the user slot parses to a record and the token slot
    holds any non-empty text (expired or undecodable claims included),
    then after hydration [PrivateRoute] renders the guarded content for
    a route without allow-list, and for a route whose allow-list
    contains the role of the record. *)
Theorem hydrate_cached_passes_guard {C : Type} (children : C)
    (roles : option (list Role)) (n1 n2 : Z) (st : gmap string string)
    (h : list string) (rawUser : string) (parsed : JSValue) :
  st !! "user" = Some rawUser ->
  JSON_parse rawUser = Some parsed ->
  nullish parsed = false ->
  present (st !! "token") = true ->
  (roles = None \/
   exists (l : list Role) (r : Role),
     roles = Some l /\ In r l /\ get parsed "role" = JStr (role_name r)) ->
  PrivateRoute children roles (snd (hydrate n1 n2 (mount st h)))
    = Fragment children.
Proof.
  intros Hu Hp Hn Ht Hroles.
  assert (Hne : rawUser <> "").
  { intros ->. rewrite JSON_parse_empty in Hp. discriminate. }
  rewrite (hydrate_cached n1 n2 st h rawUser parsed Hu Hne Hp Hn).
  unfold PrivateRoute. cbn [snd hydrating user storage role]. rewrite Ht.
  cbn [negb].
  destruct Hroles as [-> | [l [r [-> [Hin Hr]]]]]; [reflexivity|].
  replace (includes l (get parsed "role")) with true; [reflexivity|].
  symmetry. apply includes_spec. eauto.
Qed.

(** ** Token codec and session store *)

Lemma isExpired_expired_b (now : Z) (p : JSValue) :
  isExpired now p = expired_b now p.
Proof.
  unfold isExpired, expired_b. destruct (truthy (get p "exp")); reflexivity.
Qed.

(** X4. [readJwt] and [isExpired] agree: what [readJwt] returns is never
    expired in the sense of [isExpired] at the same clock reading, and
    claims that [isExpired] rejects are never returned. *)
Theorem readJwt_never_expired (now : Z) (w : World) :
  exists v : JSValue,
    readJwt now w = (Ret v, w) /\
    isExpired now v = false /\
    (forall (raw : string) (p : JSValue),
       storage w !! "token" = Some raw ->
       token_payload raw = Some p ->
       isExpired now p = true ->
       v = JNull).
Proof.
  exists (readJwt_value now (storage w !! "token")).
  split; [apply readJwt_spec|]. split.
  - rewrite isExpired_expired_b, readJwt_value_stored.
    destruct (expired_b now (stored_claims _)) eqn:E; [reflexivity | exact E].
  - intros raw p Htok Hp Hexp. rewrite Htok. unfold readJwt_value.
    rewrite Hp. rewrite isExpired_expired_b in Hexp. rewrite Hexp.
    destruct (String.eqb raw ""); reflexivity.
Qed.

(** X5. After [saveSession] has stored a token whose text is not empty,
    [authHeaders] gives exactly one header, [Authorization], carrying
    that text after the word Bearer; it reads the storage and changes
    nothing. *)
Theorem authHeaders_after_saveSession (token usr : JSValue) (w : World) :
  js_to_string token <> "" ->
  authHeaders (snd (saveSession token usr w)) =
    (Ret [("Authorization", "Bearer " ++ js_to_string token)],
     snd (saveSession token usr w)).
Proof.
  intros Hne. rewrite saveSession_spec. cbn [snd].
  unfold authHeaders, bind, getItem, ret. cbn [storage].
  assert (Hl : (if truthy usr
                then <["user" := JSON_stringify usr]>
                       (<["token" := js_to_string token]> (storage w))
                else <["token" := js_to_string token]> (storage w))
               !! "token" = Some (js_to_string token)).
  { destruct (truthy usr).
    - rewrite lookup_insert_ne by discriminate. apply lookup_insert_eq.
    - apply lookup_insert_eq. }
  rewrite Hl. cbn [from_option id].
  destruct (String.eqb_spec (js_to_string token) ""); [contradiction|].
  reflexivity.
Qed.

(** X6. [clearSession] undoes [saveSession]: on a storage that held
    neither session slot, saving a session and clearing it gives back
    the application exactly as it was, other keys included. *)
Theorem clearSession_undoes_saveSession (token usr : JSValue) (w : World) :
  storage w !! "token" = None ->
  storage w !! "user" = None ->
  clearSession (snd (saveSession token usr w)) = (Ret tt, w).
Proof.
  intros Ht Hu. rewrite saveSession_spec. cbn [snd].
  unfold clearSession, bind, removeItem. cbn [storage user hydrating history].
  destruct w as [st u hy hi]. cbn [storage user hydrating history] in *.
  f_equal. f_equal. apply map_eq. intros k.
  destruct (decide (k = "user")) as [-> | Hku].
  { rewrite lookup_delete_eq. symmetry. exact Hu. }
  rewrite lookup_delete_ne by congruence.
  destruct (decide (k = "token")) as [-> | Hkt].
  { rewrite lookup_delete_eq. symmetry. exact Ht. }
  rewrite lookup_delete_ne by congruence.
  destruct (truthy usr).
  - rewrite lookup_insert_ne by congruence.
    rewrite lookup_insert_ne by congruence. reflexivity.
  - rewrite lookup_insert_ne by congruence. reflexivity.
Qed.

(** X7. The last complete session wins: a [saveSession] that carries a
    user record replaces whatever an earlier [saveSession] wrote, so the
    storage is the same as if the earlier call had not happened. *)
Theorem saveSession_last_write_wins (t1 u1 t2 u2 : JSValue) (w : World) :
  truthy u2 = true ->
  saveSession t2 u2 (snd (saveSession t1 u1 w)) = saveSession t2 u2 w.
Proof.
  intros H2. rewrite !saveSession_spec. cbn [snd storage user hydrating history].
  rewrite H2. f_equal. f_equal. apply map_eq. intros k.
  destruct (decide (k = "user")) as [-> | Hku].
  { rewrite !lookup_insert_eq. reflexivity. }
  rewrite !(lookup_insert_ne _ "user") by congruence.
  destruct (decide (k = "token")) as [-> | Hkt].
  { rewrite !lookup_insert_eq. reflexivity. }
  rewrite !(lookup_insert_ne _ "token") by congruence.
  destruct (truthy u1).
  - rewrite lookup_insert_ne by congruence.
    rewrite lookup_insert_ne by congruence. reflexivity.
  - rewrite lookup_insert_ne by congruence. reflexivity.
Qed.

(** ** Route guard *)

(** X8. [PrivateRoute] renders the guarded content only for a signed-in
    user: if it renders it, then hydration is finished, there is a
    current user, the token slot is not empty, and the role of the user
    is in the allow-list when one is given. *)
Theorem PrivateRoute_renders_only_authorized {C : Type} (children : C)
    (roles : option (list Role)) (w : World) :
  PrivateRoute children roles w = Fragment children ->
  hydrating w = false /\
  present (storage w !! "token") = true /\
  exists u : User,
    user w = Some u /\
    forall l : list Role,
      roles = Some l -> exists r : Role, In r l /\ role u = JStr (role_name r).
Proof.
  unfold PrivateRoute.
  destruct (hydrating w); [discriminate|].
  destruct (user w) as [u|]; [|discriminate].
  destruct (present (storage w !! "token")); [|discriminate].
  cbn [negb]. intros H. split; [reflexivity|]. split; [reflexivity|].
  exists u. split; [reflexivity|]. intros l ->.
  destruct (includes l (role u)) eqn:E; [|discriminate].
  apply includes_spec. exact E.
Qed.

(** ** Sign-in *)

Lemma coalesce_idem (a b : JSValue) :
  nullish b = false -> coalesce (coalesce a b) b = coalesce a b.
Proof.
  intros Hb. unfold coalesce.
  destruct (nullish a) eqn:Ha; [rewrite Hb | rewrite Ha]; reflexivity.
Qed.

Lemma truthy_coalesce_empty (a : JSValue) :
  truthy (coalesce a (JStr "")) = truthy a.
Proof. destruct a; reflexivity. Qed.

Lemma coalesce_truthy (a b : JSValue) : truthy a = true -> coalesce a b = a.
Proof.
  intros H. unfold coalesce. rewrite (truthy_not_nullish a H). reflexivity.
Qed.

Lemma get_object_not_nullish (data : JSValue) (k : string)
    (fields : list (string * JSValue)) :
  get data k = JObj fields -> nullish data = false.
Proof. destruct data; simpl; congruence. Qed.

(** X9. A sign-in whose response carries a user record with an email
    and a role completes without looking at the token, and survives a
    reload: the hydration effect run on the storage it leaves sets the
    very same current user.  The JSON functions of the platform are
    required to give the record back when it is printed and parsed
    again. *)
Theorem signIn_body_reload_stable (em pw : string) (data : JSValue)
    (fields : list (string * JSValue)) (now : Z) (w : World) :
  get data "user" = JObj fields ->
  truthy (get (JObj fields) "email") = true ->
  truthy (get (JObj fields) "role") = true ->
  JSON_parse (JSON_stringify (JObj fields)) = Some (JObj fields) ->
  exists (w' : World) (u : User),
    signIn em pw (Response true (Some data)) now w = (Ret tt, w') /\
    user w' = Some u /\
    email u = get (JObj fields) "email" /\
    role u = get (JObj fields) "role" /\
    forall (n1 n2 : Z) (h : list string),
      hydrate n1 n2 (mount (storage w') h)
        = (Ret tt, mkWorld (storage w') (Some u) false h).
Proof.
  intros Hu He Hr Hrt.
  pose proof (get_object_not_nullish data "user" fields Hu) as Hd.
  assert (Hne : JSON_stringify (JObj fields) <> "").
  { intros Heq. rewrite Heq, JSON_parse_empty in Hrt. discriminate. }
  rewrite (signIn_ok_spec em pw data now w Hd). cbn zeta.
  rewrite saveSession_spec. cbn [snd storage].
  assert (Hl : body_locals data =
               mkLocals (get (JObj fields) "role")
                        (get (JObj fields) "email")
                        (coalesce (get (JObj fields) "name") (JStr ""))
                        (coalesce (coalesce (get (JObj fields) "userId")
                                            (get (JObj fields) "id")) (JNum 0))).
  { unfold body_locals. rewrite Hu. cbn [truthy].
    rewrite (coalesce_truthy _ (JStr "") He). reflexivity. }
  rewrite Hl. unfold needs_token. cbn [l_emailOut l_role].
  rewrite He, Hr. cbn [negb orb andb]. rewrite Hu. cbn [truthy].
  eexists. eexists. split; [reflexivity|].
  cbn [user storage]. split; [reflexivity|].
  unfold user_of_locals. cbn [email role l_emailOut l_role l_nameOut l_userId].
  split; [reflexivity|]. split; [reflexivity|].
  intros n1 n2 h.
  rewrite (hydrate_cached n1 n2 _ h (JSON_stringify (JObj fields)) (JObj fields));
    [ | apply lookup_insert_eq | exact Hne | exact Hrt | reflexivity ].
  rewrite (coalesce_idem (get (JObj fields) "name") (JStr "")) by reflexivity.
  rewrite (coalesce_truthy _ (JStr "") He). reflexivity.
Qed.

(** X10. A sign-in whose response carries a token and no user record,
    on a storage with no cached user record, takes the identity from
    the claims of the token and survives a reload: when the claims are
    not expired, carry an email and a role, and their [sub] is a number
    or absent, the hydration effect run on the storage it leaves sets
    the same current user. *)
Theorem signIn_token_reload_stable (em pw : string) (data : JSValue)
    (tok : string) (p : JSValue) (now n1 n2 : Z) (w : World) (h : list string) :
  nullish data = false ->
  get data "access_token" = JStr tok ->
  truthy (get data "user") = false ->
  storage w !! "user" = None ->
  token_payload tok = Some p ->
  (now <= n2)%Z ->
  (n1 <= n2)%Z ->
  (get p "exp" = JUndefined \/
   exists e : Q, get p "exp" = JNum e /\ (seconds n2 < e)%Q) ->
  truthy (get p "email") = true ->
  truthy (get p "role") = true ->
  (is_number (get p "sub") = true \/ nullish (get p "sub") = true) ->
  exists w' : World,
    signIn em pw (Response true (Some data)) now w = (Ret tt, w') /\
    user w' = Some (mkUser (coalesce (get p "sub") (JNum 0))
                           (get p "email")
                           (coalesce (get p "name") (JStr ""))
                           (get p "role")) /\
    hydrate n1 n2 (mount (storage w') h)
      = (Ret tt, mkWorld (storage w') (user w') false h).
Proof.
  intros Hd Htok Hnu Hus Hp Hnow Hn1 Hexp He Hr Hsub.
  assert (Hfresh : forall n, (n <= n2)%Z -> expired_b n p = false).
  { intros n Hn. destruct Hexp as [Habs | [e [Hex Hlt]]].
    - apply expired_b_undefined; exact Habs.
    - apply (expired_b_future n p e Hex).
      eapply Qle_lt_trans; [apply seconds_mono; exact Hn | exact Hlt]. }
  pose proof (token_payload_nonempty tok p Hp) as Hne.
  simpl in Hne. apply negb_true_iff in Hne.
  assert (Hval : forall n, (n <= n2)%Z -> readJwt_value n (Some tok) = p).
  { intros n Hn. unfold readJwt_value. rewrite Hne, Hp, (Hfresh n Hn).
    reflexivity. }
  assert (Hpt : truthy p = true).
  { destruct p; try discriminate; reflexivity. }
  rewrite (signIn_ok_spec em pw data now w Hd). cbn zeta.
  rewrite saveSession_spec, Hnu, Htok. cbn [snd storage js_to_string].
  rewrite lookup_insert_eq, (Hval now Hnow), Hpt.
  unfold body_locals. rewrite Hnu. unfold needs_token.
  cbn [l_emailOut l_role l_nameOut l_userId truthy negb orb andb].
  unfold token_locals, user_of_locals.
  cbn [l_emailOut l_role l_nameOut l_userId truthy negb Qeq_bool].
  assert (Hid : (if is_number (get p "sub") then get p "sub" else JNum 0)
                = coalesce (get p "sub") (JNum 0)).
  { destruct Hsub as [Hs | Hs].
    - rewrite Hs. destruct (get p "sub"); try discriminate. reflexivity.
    - unfold coalesce. rewrite Hs.
      destruct (get p "sub"); try discriminate; reflexivity. }
  eexists. split; [reflexivity|]. cbn [user storage].
  split.
  - rewrite (coalesce_idem (get p "name") (JStr "")) by reflexivity.
    rewrite <- Hid. reflexivity.
  - rewrite hydrate_no_cache
      by (rewrite lookup_insert_ne by discriminate; rewrite Hus; reflexivity).
    cbn zeta. rewrite lookup_insert_eq, (Hval n1 Hn1), (Hfresh n2) by lia.
    rewrite He, Hr. cbn [andb]. unfold user_of_claims.
    rewrite (coalesce_idem (get p "name") (JStr "")) by reflexivity.
    rewrite Hid. reflexivity.
Qed.

(** X11. A sign-in that fails can still sign the user in at the next
    page load.  When the response carries a user record that lacks an
    email or a role and a non-empty token that does not decode, [signIn]
    throws the Invalid token error and leaves the current user as it
    was; but the record is already cached, so the hydration effect run
    on the storage it leaves adopts the record as current user, and the
    guard of a route without allow-list then renders its content. *)
Theorem signIn_failure_reload_adopts_record {C : Type} (children : C)
    (em pw : string) (data : JSValue) (fields : list (string * JSValue))
    (now : Z) (w : World) :
  get data "user" = JObj fields ->
  (truthy (get (JObj fields) "email") = false \/
   truthy (get (JObj fields) "role") = false) ->
  js_to_string (get data "access_token") <> "" ->
  token_payload (js_to_string (get data "access_token")) = None ->
  JSON_parse (JSON_stringify (JObj fields)) = Some (JObj fields) ->
  exists w' : World,
    signIn em pw (Response true (Some data)) now w
      = (Throw (Error "Invalid token"), w') /\
    user w' = user w /\
    forall (n1 n2 : Z) (h : list string),
      hydrate n1 n2 (mount (storage w') h)
        = (Ret tt,
           mkWorld (storage w') (Some (user_of_record (JObj fields))) false h) /\
      PrivateRoute children None (snd (hydrate n1 n2 (mount (storage w') h)))
        = Fragment children.
Proof.
  intros Hu Hmiss Htne Htok Hrt.
  pose proof (get_object_not_nullish data "user" fields Hu) as Hd.
  assert (Hne : JSON_stringify (JObj fields) <> "").
  { intros Heq. rewrite Heq, JSON_parse_empty in Hrt. discriminate. }
  rewrite (signIn_ok_spec em pw data now w Hd). cbn zeta.
  rewrite saveSession_spec, Hu. cbn [snd storage truthy].
  rewrite lookup_insert_ne by discriminate. rewrite lookup_insert_eq.
  assert (Hv : readJwt_value now (Some (js_to_string (get data "access_token")))
               = JNull).
  { unfold readJwt_value. rewrite Htok.
    destruct (String.eqb _ ""); reflexivity. }
  rewrite Hv.
  assert (Hneed : needs_token (body_locals data) = true).
  { unfold needs_token, body_locals. rewrite Hu.
    cbn [truthy l_emailOut l_role]. rewrite truthy_coalesce_empty.
    destruct Hmiss as [H | H]; rewrite H; [reflexivity | apply orb_true_r]. }
  rewrite Hneed. cbn [truthy negb andb].
  eexists. split; [reflexivity|]. cbn [user storage].
  split; [reflexivity|]. intros n1 n2 h.
  rewrite (hydrate_cached n1 n2 _ h (JSON_stringify (JObj fields)) (JObj fields));
    [ | apply lookup_insert_eq | exact Hne | exact Hrt | reflexivity ].
  split; [reflexivity|].
  unfold PrivateRoute. cbn [snd hydrating user storage].
  rewrite lookup_insert_ne by discriminate. rewrite lookup_insert_eq.
  apply present_nonempty in Htne. rewrite Htne. reflexivity.
Qed.

Lemma signIn_completes_inv (em pw : string) (res : FetchOutcome) (now : Z)
    (w w' : World) :
  signIn em pw res now w = (Ret tt, w') ->
  exists u : User,
    w' = mkWorld (storage w') (Some u) (hydrating w)
                 (landing (role u) :: tail (history w)).
Proof.
  destruct res as [|ok json]; [discriminate|].
  destruct ok; [|discriminate].
  destruct json as [data|]; [|discriminate].
  destruct (nullish data) eqn:Hd.
  - unfold signIn, bind, lift_option, ret, prop. simpl. rewrite Hd. discriminate.
  - rewrite (signIn_ok_spec em pw data now w Hd). cbn zeta.
    destruct (needs_token (body_locals data) && negb (truthy _));
      [discriminate|].
    intros [= <-]. eexists (user_of_locals _). reflexivity.
Qed.

(** The route a role lands on is declared in [App], and its guard lets
    a signed-in user of that role through. *)
Lemma landing_route_admits (w : World) (u : User) :
  hydrating w = false ->
  user w = Some u ->
  present (storage w !! "token") = true ->
  exists (roles : option (list Role)) (page : Page),
    declared_route (landing (role u)) = Some (Private roles page) /\
    render_route (Private roles page) w = Fragment page.
Proof.
  intros Hh Hu Ht.
  assert (Hdash : exists (roles : option (list Role)) (page : Page),
             declared_route "/dashboard" = Some (Private roles page) /\
             render_route (Private roles page) w = Fragment page).
  { exists None, DashboardPage. split; [reflexivity|].
    unfold render_route, PrivateRoute. rewrite Hh, Hu, Ht. reflexivity. }
  unfold landing. destruct (role u) as [| | | |s| |] eqn:Hr; try exact Hdash.
  destruct (String.eqb_spec s "STUDENT") as [-> | _].
  { exists (Some [STUDENT]), StudentDashboard. split; [reflexivity|].
    unfold render_route, PrivateRoute. rewrite Hh, Hu, Ht, Hr. reflexivity. }
  destruct (String.eqb_spec s "INSTRUCTOR") as [-> | _].
  { exists (Some [INSTRUCTOR]), InstructorPage. split; [reflexivity|].
    unfold render_route, PrivateRoute. rewrite Hh, Hu, Ht, Hr. reflexivity. }
  destruct (String.eqb_spec s "ADMIN") as [-> | _].
  { exists (Some [ADMIN]), AdminDashboard. split; [reflexivity|].
    unfold render_route, PrivateRoute. rewrite Hh, Hu, Ht, Hr. reflexivity. }
  exact Hdash.
Qed.

(** X12. A completed sign-in is never bounced by the guard of the page
    it lands on: after [signIn] has returned, with hydration finished
    and a non-empty token stored, the history entry it wrote is a route
    declared in [App] whose [PrivateRoute] renders the page for the
    current user. *)
Theorem signIn_landing_route_admits (em pw : string) (res : FetchOutcome)
    (now : Z) (w w' : World) :
  signIn em pw res now w = (Ret tt, w') ->
  hydrating w = false ->
  present (storage w' !! "token") = true ->
  exists (u : User) (roles : option (list Role)) (page : Page),
    user w' = Some u /\
    history w' = landing (role u) :: tail (history w) /\
    declared_route (landing (role u)) = Some (Private roles page) /\
    render_route (Private roles page) w' = Fragment page.
Proof.
  intros Hs Hh Ht.
  destruct (signIn_completes_inv em pw res now w w' Hs) as [u Hw'].
  assert (Hu : user w' = Some u) by (rewrite Hw'; reflexivity).
  assert (Hh' : hydrating w' = false) by (rewrite Hw'; exact Hh).
  destruct (landing_route_admits w' u Hh' Hu Ht) as [roles [page [Hd Hr]]].
  exists u, roles, page. split; [exact Hu|].
  split; [rewrite Hw'; reflexivity|]. split; assumption.
Qed.

(** ** RoleHome and the role paths *)

(** X13. [RoleHome] sends a signed-in user where [signIn] would have:
    with hydration finished it redirects to the landing path of the
    role of the user, which is a route whose guard admits that user
    when a token is stored; with no user it redirects to the login
    page; it never renders content of its own. *)
Theorem RoleHome_follows_landing {C : Type} (w : World) :
  hydrating w = false ->
  match user w with
  | Some u =>
      @RoleHome C w = Navigate (landing (role u)) true /\
      (present (storage w !! "token") = true ->
       exists (roles : option (list Role)) (page : Page),
         declared_route (landing (role u)) = Some (Private roles page) /\
         render_route (Private roles page) w = Fragment page)
  | None => @RoleHome C w = Navigate "/login" true
  end.
Proof.
  intros Hh. unfold RoleHome. rewrite Hh.
  destruct (user w) as [u|] eqn:Hu; [|reflexivity].
  split; [|intros Ht; exact (landing_route_admits w u Hh Hu Ht)].
  unfold landing. destruct (role u) as [| | | |s| |]; try reflexivity.
  destruct (String.eqb_spec s "ADMIN") as [-> | _]; [reflexivity|].
  destruct (String.eqb_spec s "INSTRUCTOR") as [-> | _]; [reflexivity|].
  destruct (String.eqb_spec s "STUDENT") as [-> | _]; reflexivity.
Qed.

(** X14. The role paths of [DashboardPage] and of the navigation bar
    are the same function of the role, and both agree with the landing
    path of [signIn] except on a role outside the three known ones,
    which they send to the landing page and [signIn] to the dashboard. *)
Theorem role_paths_agree (u : User) :
  roleToPath (role u) = brandHref (Some u) /\
  roleToPath (role u) =
    (if String.eqb (landing (role u)) "/dashboard" then "/"
     else landing (role u)).
Proof.
  unfold roleToPath, brandHref, landing.
  destruct (role u) as [| | | |s| |]; try (split; reflexivity).
  destruct (String.eqb_spec s "STUDENT") as [-> | _]; [split; reflexivity|].
  destruct (String.eqb_spec s "INSTRUCTOR") as [-> | _]; [split; reflexivity|].
  destruct (String.eqb_spec s "ADMIN") as [-> | _]; split; reflexivity.
Qed.

(** ** Navigation bar *)

(** X15. The navigation bar shows before hydration the user that
    hydration is about to set: when no user record is cached and the
    hydration effect derives a current user from the token, [me] in the
    bar rendered on the freshly mounted application (same clock reading
    in [readJwt]) is that user, and it is still that user once
    hydration has set it, at any later reading. *)
Theorem Navbar_me_matches_hydrate (n1 n2 n : Z) (st : gmap string string)
    (h : list string) (u : User) :
  present (st !! "user") = false ->
  user (snd (hydrate n1 n2 (mount st h))) = Some u ->
  Navbar_me n1 (mount st h) = (Ret (Some u), mount st h) /\
  fst (Navbar_me n (snd (hydrate n1 n2 (mount st h)))) = Ret (Some u).
Proof.
  intros Hc Hu. split.
  - rewrite (hydrate_no_cache n1 n2 st h Hc) in Hu. cbn zeta in Hu. cbn [snd] in Hu.
    destruct (expired_b n2 _); [discriminate|].
    destruct (truthy (get _ "email")) eqn:He; [|discriminate].
    destruct (truthy (get _ "role")) eqn:Hr; [|discriminate].
    cbn [andb user] in Hu. injection Hu as <-.
    unfold Navbar_me, mount. cbn [user]. unfold bind at 1.
    rewrite readJwt_spec. cbn [storage].
    set (p := readJwt_value n1 (st !! "token")) in *.
    assert (Hn : nullish p = false)
      by (eapply get_truthy_not_nullish; exact He).
    assert (Hp : truthy p = true)
      by (destruct p; try discriminate; reflexivity).
    rewrite Hp. unfold bind, ret.
    repeat rewrite prop_not_nullish by exact Hn. reflexivity.
  - unfold Navbar_me. rewrite Hu. reflexivity.
Qed.

(** ** Dashboard page *)

Lemma second_segment (l : list string) :
  nth_error l 1 = if (length l <? 2)%nat then None else Some (nth 1 l "").
Proof. destruct l as [|a [|b l']]; reflexivity. Qed.

Lemma Dashboard_readJwt_spec (w : World) :
  Dashboard_readJwt w = (Ret (stored_claims (storage w !! "token")), w).
Proof.
  unfold Dashboard_readJwt, stored_claims, bind, getItem.
  destruct (storage w !! "token") as [raw|]; [|reflexivity].
  cbn [present from_option id].
  destruct (String.eqb raw ""); cbn [negb]; [reflexivity|].
  unfold try_catch, token_payload, bind, lift_option.
  rewrite second_segment.
  destruct (length (split_dot raw) <? 2)%nat; [reflexivity|].
  cbn beta iota. unfold ret at 1. cbn beta iota.
  destruct (atob _) as [json|]; [|reflexivity].
  unfold ret at 1. cbn beta iota.
  destruct (JSON_parse json); reflexivity.
Qed.


(** What the effect of the dashboard page does, by the claims in the
    token slot. *)
Lemma DashboardPage_effect_spec (now : Z) (s : DashboardState) (w : World) :
  DashboardPage_effect now s w =
    let c := stored_claims (storage w !! "token") in
    if negb (truthy c) then
      (Ret s, mkWorld (storage w) (user w) (hydrating w)
                      ("/login" :: tail (history w)))
    else if expired_b now c then
      (Ret s, mkWorld (delete "user" (delete "token" (storage w))) (user w)
                      (hydrating w) ("/login" :: tail (history w)))
    else if truthy (get c "role") then
      (Ret s, mkWorld (storage w) (user w) (hydrating w)
                      (roleToPath (get c "role") :: tail (history w)))
    else
      (Ret (mkDashboardState
              false "Could not determine your role. Please sign in again."),
       w).
Proof.
  unfold DashboardPage_effect. unfold bind at 1.
  rewrite Dashboard_readJwt_spec. cbn zeta.
  set (c := stored_claims (storage w !! "token")).
  destruct (truthy c) eqn:Hc; cbn [negb]; [|reflexivity].
  apply truthy_not_nullish in Hc.
  unfold bind at 1. rewrite prop_not_nullish by exact Hc.
  fold (expired_b now c).
  destruct (expired_b now c); [reflexivity|].
  unfold bind at 1. rewrite prop_not_nullish by exact Hc.
  destruct (truthy (get c "role")); reflexivity.
Qed.

(** X17. The dashboard page clears an expired session: when the stored
    token decodes to claims whose non-zero expiry has passed, its effect
    removes the token slot and the user slot and replaces the route by
    the login page, leaving the state of the page and the current user
    of the auth context as they were. *)
Theorem DashboardPage_expired_clears (now : Z) (s : DashboardState)
    (w : World) (raw : string) (p : JSValue) (e : Q) :
  storage w !! "token" = Some raw ->
  token_payload raw = Some p ->
  get p "exp" = JNum e ->
  ~ (e == 0)%Q ->
  (e < seconds now)%Q ->
  DashboardPage_effect now s w =
    (Ret s,
     mkWorld (delete "user" (delete "token" (storage w))) (user w)
             (hydrating w) ("/login" :: tail (history w))).
Proof.
  intros Htok Hp He Hnz Hlt.
  rewrite DashboardPage_effect_spec, Htok. cbn zeta.
  pose proof (token_payload_nonempty raw p Hp) as Hne.
  simpl in Hne. apply negb_true_iff in Hne.
  unfold stored_claims. rewrite Hne, Hp. cbn [default from_option id].
  assert (Hpt : truthy p = true)
    by (destruct p; try discriminate; reflexivity).
  rewrite Hpt. cbn [negb].
  replace (expired_b now p) with true; [reflexivity|].
  symmetry. apply (expired_b_num now p e He). auto.
Qed.



(** ** Logging out and logging in *)

Lemma PrivateRoute_without_token {C : Type} (children : C)
    (roles : option (list Role)) (w : World) :
  storage w !! "token" = None ->
  PrivateRoute children roles w =
    if hydrating w then Nothing else Navigate "/login" true.
Proof.
  intros Ht. unfold PrivateRoute. rewrite Ht.
  destruct (hydrating w); [reflexivity|].
  destruct (user w); reflexivity.
Qed.

Lemma authHeaders_without_token (w : World) :
  storage w !! "token" = None -> authHeaders w = (Ret [], w).
Proof.
  intros Ht. unfold authHeaders, bind, getItem, ret. rewrite Ht. reflexivity.
Qed.

Lemma cleared_lookup (st : gmap string string) :
  delete "user" (delete "token" st) !! "token" = None /\
  delete "user" (delete "token" st) !! "user" = None.
Proof.
  split.
  - rewrite lookup_delete_ne by discriminate. apply lookup_delete_eq.
  - apply lookup_delete_eq.
Qed.

(** X19. Every way of logging out closes the guarded routes.  After
    [signOut], after the logout button of the navigation bar and after
    [logoutAndGoLogin] alike, both session slots are gone, [authHeaders]
    gives no header, the route is the login page, and [PrivateRoute]
    redirects to the login page for every allow-list (it renders nothing
    while hydrating).  [logoutAndGoLogin] gets there although it leaves
    the current user of the auth context in place. *)
Theorem logout_paths_block {C : Type} (children : C)
    (roles : option (list Role)) (w w' : World) :
  In w' [snd (signOut w); snd (handleLogout w); snd (logoutAndGoLogin w)] ->
  storage w' !! "token" = None /\
  storage w' !! "user" = None /\
  authHeaders w' = (Ret [], w') /\
  head (history w') = Some "/login" /\
  PrivateRoute children roles w' =
    (if hydrating w then Nothing else Navigate "/login" true) /\
  (w' = snd (logoutAndGoLogin w) -> user w' = user w).
Proof.
  intros Hin.
  destruct (cleared_lookup (storage w)) as [Ht Hu].
  assert (Hshape : exists u hi,
             w' = mkWorld (delete "user" (delete "token" (storage w))) u
                          (hydrating w) ("/login" :: hi) /\
             (w' = snd (logoutAndGoLogin w) -> u = user w)).
  { simpl in Hin. destruct Hin as [<- | [<- | [<- | []]]].
    - eexists. eexists. split; [reflexivity|].
      intros H. apply (f_equal user) in H. exact H.
    - eexists. eexists. split; [reflexivity|].
      intros H. apply (f_equal user) in H. exact H.
    - eexists. eexists. split; [reflexivity|]. reflexivity. }
  destruct Hshape as [u [hi [-> Hkeep]]]. cbn [storage history head user].
  split; [exact Ht|]. split; [exact Hu|].
  split; [exact (authHeaders_without_token (mkWorld _ u _ _) Ht)|].
  split; [reflexivity|].
  split; [exact (PrivateRoute_without_token children roles (mkWorld _ u _ _) Ht)
         | exact Hkeep].
Qed.

(** X20. The login form shows an error exactly when sign-in failed,
    and never a blank one.  [handleSubmit] never throws and always ends
    loading; if [signIn] returned, the error is empty and the dashboard
    route is pushed on top of the landing route; if [signIn] threw, the
    route is untouched by the form and the error is the message of the
    exception, or Login failed when that message is empty. *)
Theorem handleSubmit_error_shown (builtin_message : JSError -> string)
    (em pw : string) (res : FetchOutcome) (now : Z) (s : LoginState)
    (w : World) :
  exists (s' : LoginState) (w' : World),
    handleSubmit builtin_message em pw res now s w = (Ret s', w') /\
    l_loading s' = false /\
    ((exists w1 : World,
        signIn em pw res now w = (Ret tt, w1) /\
        l_err s' = "" /\
        w' = mkWorld (storage w1) (user w1) (hydrating w1)
                     ("/dashboard" :: history w1))
     \/
     (exists e : JSError,
        signIn em pw res now w = (Throw e, w') /\
        l_err s' <> "" /\
        (error_message builtin_message e <> "" ->
         l_err s' = error_message builtin_message e) /\
        (error_message builtin_message e = "" -> l_err s' = "Login failed"))).
Proof.
  unfold handleSubmit, bind, nav_push.
  destruct (signIn em pw res now w) as [[[]|e] w1].
  - eexists. eexists. split; [reflexivity|]. split; [reflexivity|].
    left. exists w1. repeat split.
  - eexists. eexists. split; [reflexivity|]. split; [reflexivity|].
    right. exists e. split; [reflexivity|]. cbn [l_err].
    destruct (String.eqb_spec (error_message builtin_message e) "") as [Heq | Hne];
      cbn [negb].
    + repeat split; [discriminate | intros H; contradiction].
    + repeat split; [exact Hne | intros H; contradiction].
Qed.

(** ** Redirects and the routes of the application *)

(** X21. The guard never redirects into another redirect: whenever
    [PrivateRoute] returns a redirect, it replaces the history entry,
    its target is a route declared in [App], and that route renders its
    page in the same state (the login page is public, and the dashboard
    route has no allow-list). *)
Theorem PrivateRoute_redirect_target_renders {C : Type} (children : C)
    (roles : option (list Role)) (w : World) (to : string) (rep : bool) :
  PrivateRoute children roles w = Navigate to rep ->
  rep = true /\
  exists (e : RouteElement) (page : Page),
    declared_route to = Some e /\ render_route e w = Fragment page.
Proof.
  unfold PrivateRoute.
  destruct (hydrating w) eqn:Hh; [discriminate|].
  destruct (user w) as [u|] eqn:Hu.
  - destruct (present (storage w !! "token")) eqn:Ht; cbn [negb].
    + destruct roles as [l|]; [|discriminate].
      destruct (negb (includes l (role u))); [|discriminate].
      intros [= <- <-]. split; [reflexivity|].
      exists (Private None DashboardPage), DashboardPage.
      split; [reflexivity|].
      unfold render_route, PrivateRoute. rewrite Hh, Hu, Ht. reflexivity.
    + intros [= <- <-]. split; [reflexivity|].
      exists (Public LoginPage), LoginPage. split; reflexivity.
  - intros [= <- <-]. split; [reflexivity|].
    exists (Public LoginPage), LoginPage. split; reflexivity.
Qed.

Lemma includes_singleton (r : Role) (v : JSValue) :
  includes [r] v = true <-> v = JStr (role_name r).
Proof.
  rewrite includes_spec. split.
  - intros [r' [[<- | []] Hv]]. exact Hv.
  - intros ->. exists r. split; [left; reflexivity | reflexivity].
Qed.

(** X22. The dashboard page redirects by the role in the token, the
    guard admits by the role of the current user.  With a current user,
    hydration finished and a token whose claims are not expired and
    carry one of the three roles, the effect of the page replaces the
    route by the page of that role, declared in [App] with that role as
    its allow-list; the guard of that route renders the page when the
    current user has the same role, and redirects back to the dashboard
    when it has another. *)
Theorem DashboardPage_redirect_vs_guard (now : Z) (s : DashboardState)
    (w : World) (u : User) (raw : string) (p : JSValue) (r : Role) :
  hydrating w = false ->
  user w = Some u ->
  storage w !! "token" = Some raw ->
  token_payload raw = Some p ->
  isExpired now p = false ->
  get p "role" = JStr (role_name r) ->
  exists (w' : World) (page : Page),
    DashboardPage_effect now s w = (Ret s, w') /\
    history w' = roleToPath (JStr (role_name r)) :: tail (history w) /\
    declared_route (roleToPath (JStr (role_name r)))
      = Some (Private (Some [r]) page) /\
    (role u = JStr (role_name r) ->
     render_route (Private (Some [r]) page) w' = Fragment page) /\
    (role u <> JStr (role_name r) ->
     render_route (Private (Some [r]) page) w' = Navigate "/dashboard" true).
Proof.
  intros Hh Hu Htok Hp Hexp Hr.
  rewrite DashboardPage_effect_spec, Htok. cbn zeta.
  pose proof (token_payload_nonempty raw p Hp) as Hne.
  simpl in Hne. apply negb_true_iff in Hne.
  unfold stored_claims. rewrite Hne, Hp. cbn [default from_option id].
  assert (Hpt : truthy p = true).
  { destruct p; try (destruct r; discriminate). reflexivity. }
  rewrite isExpired_expired_b in Hexp. rewrite Hpt, Hexp, Hr. cbn [negb].
  assert (Hrt : truthy (JStr (role_name r)) = true) by (destruct r; reflexivity).
  rewrite Hrt.
  assert (Hpres : present (Some raw) = true) by (simpl; rewrite Hne; reflexivity).
  assert (Hpage : exists page : Page,
             declared_route (roleToPath (JStr (role_name r)))
               = Some (Private (Some [r]) page)).
  { destruct r; eexists; reflexivity. }
  destruct Hpage as [page Hpage].
  eexists. exists page. split; [reflexivity|]. split; [reflexivity|].
  split; [exact Hpage|].
  unfold render_route, PrivateRoute. cbn [hydrating user storage].
  rewrite Hh, Hu, Htok, Hpres. cbn [negb].
  split.
  - intros Heq. apply includes_singleton in Heq. rewrite Heq. reflexivity.
  - intros Hneq. destruct (includes [r] (role u)) eqn:E; [|reflexivity].
    apply includes_singleton in E. contradiction.
Qed.

(** ** Segments and alphabets of the token *)

Lemma split_dot_no_dot (s : string) : no_dot s = true -> split_dot s = [s].
Proof.
  induction s as [|c s IH]; [reflexivity|].
  unfold no_dot. simpl. rewrite andb_true_iff, negb_true_iff.
  intros [Hc Hs]. rewrite Hc. fold (no_dot s) in Hs. rewrite (IH Hs). reflexivity.
Qed.

Lemma split_dot_segment (seg rest : string) :
  no_dot seg = true ->
  split_dot (seg ++ String "." rest) = seg :: split_dot rest.
Proof.
  induction seg as [|c seg IH]; [reflexivity|].
  unfold no_dot. simpl. rewrite andb_true_iff, negb_true_iff.
  intros [Hc Hs]. rewrite Hc. fold (no_dot seg) in Hs. rewrite (IH Hs).
  reflexivity.
Qed.

Lemma append_dot_nonempty (seg rest : string) :
  String.eqb (seg ++ String "." rest) "" = false.
Proof. destruct seg; reflexivity. Qed.

Lemma token_payload_middle (hd mid sig : string) :
  no_dot hd = true ->
  no_dot mid = true ->
  token_payload (hd ++ String "." (mid ++ String "." sig)) =
    match atob (replace_char "_" "/" (replace_char "-" "+" mid)) with
    | Some json => JSON_parse json
    | None => None
    end.
Proof.
  intros Hh Hm. unfold token_payload.
  rewrite (split_dot_segment hd _ Hh), (split_dot_segment mid _ Hm).
  destruct (split_dot sig); reflexivity.
Qed.

(** X23. The codec reads the middle segment and nothing else: two
    stored tokens with the same middle segment give the same result in
    [readJwt], whatever their header and signature segments are. *)
Theorem readJwt_ignores_signature (now : Z) (w1 w2 : World)
    (hd1 hd2 mid sig1 sig2 : string) :
  no_dot hd1 = true ->
  no_dot hd2 = true ->
  no_dot mid = true ->
  storage w1 !! "token" = Some (hd1 ++ String "." (mid ++ String "." sig1)) ->
  storage w2 !! "token" = Some (hd2 ++ String "." (mid ++ String "." sig2)) ->
  fst (readJwt now w1) = fst (readJwt now w2).
Proof.
  intros H1 H2 Hm Ht1 Ht2.
  rewrite !readJwt_spec, Ht1, Ht2. cbn [fst]. f_equal.
  unfold readJwt_value. rewrite !append_dot_nonempty.
  rewrite (token_payload_middle hd1 mid sig1 H1 Hm).
  rewrite (token_payload_middle hd2 mid sig2 H2 Hm). reflexivity.
Qed.

Lemma replace_char_map (from to : ascii) (s : string) :
  list_ascii_of_string (replace_char from to s) =
    map (fun c => if Ascii.eqb c from then to else c) (list_ascii_of_string s).
Proof. unfold replace_char. apply list_ascii_of_string_of_list_ascii. Qed.

Lemma standard_of_urlsafe_char (c : ascii) :
  let std := fun c => let c1 := if Ascii.eqb c "-" then "+"%char else c in
                      if Ascii.eqb c1 "_" then "/"%char else c1 in
  let safe := fun c => let c1 := if Ascii.eqb c "+" then "-"%char else c in
                       if Ascii.eqb c1 "/" then "_"%char else c1 in
  std (safe c) = std c.
Proof.
  cbv beta zeta.
  destruct (Ascii.eqb_spec c "+") as [-> | H1]; [reflexivity|].
  destruct (Ascii.eqb_spec c "/") as [-> | H2]; [reflexivity|].
  reflexivity.
Qed.

(** X24. The decoder accepts both base64 alphabets: a middle segment
    and its URL-safe spelling decode to the same result, error or
    value. *)
Theorem decodeBase64UrlJSON_both_alphabets (b64 : string) (w : World) :
  decodeBase64UrlJSON (urlsafe b64) w = decodeBase64UrlJSON b64 w.
Proof.
  unfold decodeBase64UrlJSON.
  replace (replace_char "_" "/" (replace_char "-" "+" (urlsafe b64)))
    with (replace_char "_" "/" (replace_char "-" "+" b64)); [reflexivity|].
  unfold urlsafe.
  rewrite <- (string_of_list_ascii_of_string
                (replace_char "_" "/" (replace_char "-" "+" b64))).
  rewrite <- (string_of_list_ascii_of_string
                (replace_char "_" "/"
                   (replace_char "-" "+"
                      (replace_char "/" "_" (replace_char "+" "-" b64))))).
  f_equal. rewrite !replace_char_map, !map_map.
  apply map_ext. intros c. symmetry. apply standard_of_urlsafe_char.
Qed.

(** ** The token codec, revisited *)


(** C9. Where the code departs from the claim: an expiry of zero is not
    enforced.  When the stored token decodes to claims whose [exp] is
    the number zero, [readJwt] returns the claims, not [null], at every
    clock reading, so also when zero is strictly less than the current
    time: the test [payload?.exp && ...] takes a zero for a missing
    expiry. *)
Theorem readJwt_zero_expiry_kept (now : Z) (w : World) (raw : string)
    (p : JSValue) (e : Q) :
  storage w !! "token" = Some raw ->
  token_payload raw = Some p ->
  get p "exp" = JNum e ->
  (e == 0)%Q ->
  readJwt now w = (Ret p, w) /\ p <> JNull.
Proof.
  intros Htok Hp He Hz. split.
  - rewrite readJwt_spec, Htok. unfold readJwt_value. rewrite Hp.
    pose proof (token_payload_nonempty raw p Hp) as Hne.
    simpl in Hne. apply negb_true_iff in Hne. rewrite Hne.
    unfold expired_b. rewrite He. cbn [truthy].
    apply Qeq_bool_iff in Hz. rewrite Hz. reflexivity.
  - intros ->. discriminate.
Qed.

End MoreProperties.

(** * The further properties on the reference platform *)

Section MoreEvaluation.

Import Sample.

#[local] Existing Instance Reference.platform.

Example hydrate_user_slot_decides_witness :
  user (snd (hydrate now now (mount cached_expired ["/"]))) =
    match JSON_parse admin_text with
    | Some parsed =>
        if nullish parsed then None else Some (user_of_record parsed)
    | None => None
    end /\
  user (snd (hydrate 0 0 (mount cached_only []))) =
    user (snd (hydrate now now (mount cached_expired ["/"]))) /\
  storage (snd (hydrate now now (mount cached_expired ["/"]))) = cached_expired.
Proof.
  apply (hydrate_user_slot_decides now now 0 0 cached_expired cached_only
           ["/"] [] admin_text).
  - vm_compute. reflexivity.
  - vm_compute. reflexivity.
  - vm_compute. discriminate.
Defined.

Example hydrate_cached_passes_guard_witness :
  PrivateRoute "page" (Some [ADMIN])
    (snd (hydrate now now (mount cached_expired ["/admin"])))
    = Fragment "page".
Proof.
  apply (hydrate_cached_passes_guard "page" (Some [ADMIN]) now now
           cached_expired ["/admin"] admin_text admin_record).
  - vm_compute. reflexivity.
  - vm_compute. reflexivity.
  - reflexivity.
  - vm_compute. reflexivity.
  - right. exists [ADMIN], ADMIN.
    split; [reflexivity|]. split; [left; reflexivity | reflexivity].
Defined.

Example authHeaders_after_saveSession_witness :
  authHeaders (snd (saveSession (JStr "t") JUndefined signed_out)) =
    (Ret [("Authorization", "Bearer " ++ js_to_string (JStr "t"))],
     snd (saveSession (JStr "t") JUndefined signed_out)).
Proof.
  apply (authHeaders_after_saveSession (JStr "t") JUndefined signed_out).
  discriminate.
Defined.

Example clearSession_undoes_saveSession_witness :
  clearSession (snd (saveSession (JStr "t") admin_record signed_out))
    = (Ret tt, signed_out).
Proof.
  apply (clearSession_undoes_saveSession (JStr "t") admin_record signed_out);
    reflexivity.
Defined.

Example saveSession_last_write_wins_witness :
  saveSession (JStr "t2") admin_record
    (snd (saveSession (JStr "t1") (JObj partial_record) signed_out))
    = saveSession (JStr "t2") admin_record signed_out.
Proof.
  apply (saveSession_last_write_wins (JStr "t1") (JObj partial_record)
           (JStr "t2") admin_record signed_out).
  reflexivity.
Defined.

Example PrivateRoute_renders_only_authorized_witness :
  hydrating signed_in = false /\
  present (storage signed_in !! "token") = true /\
  exists u : User,
    user signed_in = Some u /\
    forall l : list Role,
      Some [STUDENT] = Some l ->
      exists r : Role, In r l /\ role u = JStr (role_name r).
Proof.
  apply (PrivateRoute_renders_only_authorized "page" (Some [STUDENT]) signed_in).
  vm_compute. reflexivity.
Defined.

Example signIn_body_reload_stable_witness :
  exists (w' : World) (u : User),
    signIn "x@y.com" "secret" (Response true (Some admin_body)) now signed_out
      = (Ret tt, w') /\
    user w' = Some u /\
    email u = get admin_record "email" /\
    role u = get admin_record "role" /\
    forall (n1 n2 : Z) (h : list string),
      hydrate n1 n2 (mount (storage w') h)
        = (Ret tt, mkWorld (storage w') (Some u) false h).
Proof.
  apply (signIn_body_reload_stable "x@y.com" "secret" admin_body
           [("id", JNum 5); ("email", JStr "x@y.com"); ("name", JStr "X");
            ("role", JStr "ADMIN")] now signed_out).
  - reflexivity.
  - reflexivity.
  - reflexivity.
  - vm_compute. reflexivity.
Defined.

Example signIn_token_reload_stable_witness :
  exists w' : World,
    signIn "a@b.com" "secret" (Response true (Some token_body)) now signed_out
      = (Ret tt, w') /\
    user w' = Some (mkUser (coalesce (get valid_claims "sub") (JNum 0))
                           (get valid_claims "email")
                           (coalesce (get valid_claims "name") (JStr ""))
                           (get valid_claims "role")) /\
    hydrate now now (mount (storage w') ["/"])
      = (Ret tt, mkWorld (storage w') (user w') false ["/"]).
Proof.
  apply (signIn_token_reload_stable "a@b.com" "secret" token_body valid_token
           valid_claims now now now signed_out ["/"]).
  - reflexivity.
  - reflexivity.
  - reflexivity.
  - reflexivity.
  - vm_compute. reflexivity.
  - lia.
  - lia.
  - right. exists 9999999999%Q. split; [reflexivity | vm_compute; reflexivity].
  - reflexivity.
  - reflexivity.
  - right. reflexivity.
Defined.

Example signIn_failure_reload_adopts_record_witness :
  exists w' : World,
    signIn "x@y.com" "secret" (Response true (Some partial_body)) now signed_out
      = (Throw (Error "Invalid token"), w') /\
    user w' = user signed_out /\
    forall (n1 n2 : Z) (h : list string),
      hydrate n1 n2 (mount (storage w') h)
        = (Ret tt,
           mkWorld (storage w') (Some (user_of_record (JObj partial_record)))
                   false h) /\
      PrivateRoute "page" None (snd (hydrate n1 n2 (mount (storage w') h)))
        = Fragment "page".
Proof.
  apply (signIn_failure_reload_adopts_record "page" "x@y.com" "secret"
           partial_body partial_record now signed_out).
  - reflexivity.
  - right. reflexivity.
  - vm_compute. discriminate.
  - vm_compute. reflexivity.
  - vm_compute. reflexivity.
Defined.

Example signIn_landing_route_admits_witness :
  exists (u : User) (roles : option (list Role)) (page : Page),
    user (snd (signIn "x@y.com" "secret" admin_response now signed_out))
      = Some u /\
    history (snd (signIn "x@y.com" "secret" admin_response now signed_out))
      = landing (role u) :: tail (history signed_out) /\
    declared_route (landing (role u)) = Some (Private roles page) /\
    render_route (Private roles page)
      (snd (signIn "x@y.com" "secret" admin_response now signed_out))
      = Fragment page.
Proof.
  apply (signIn_landing_route_admits "x@y.com" "secret" admin_response now
           signed_out).
  - vm_compute. reflexivity.
  - reflexivity.
  - vm_compute. reflexivity.
Defined.

Example RoleHome_follows_landing_witness :
  @RoleHome Page signed_in = Navigate "/student" true /\
  (present (storage signed_in !! "token") = true ->
   exists (roles : option (list Role)) (page : Page),
     declared_route (landing (role student)) = Some (Private roles page) /\
     render_route (Private roles page) signed_in = Fragment page).
Proof.
  exact (RoleHome_follows_landing (C := Page) signed_in eq_refl).
Defined.

Example Navbar_me_matches_hydrate_witness :
  Navbar_me now (mount (only_token valid_token) ["/"])
    = (Ret (Some (mkUser (JNum 0) (JStr "a@b.com") (JStr "") (JStr "STUDENT"))),
       mount (only_token valid_token) ["/"]) /\
  fst (Navbar_me (now + 1)
         (snd (hydrate now now (mount (only_token valid_token) ["/"]))))
    = Ret (Some (mkUser (JNum 0) (JStr "a@b.com") (JStr "") (JStr "STUDENT"))).
Proof.
  apply (Navbar_me_matches_hydrate now now (now + 1) (only_token valid_token)
           ["/"]).
  - reflexivity.
  - vm_compute. reflexivity.
Defined.

Example DashboardPage_expired_clears_witness :
  DashboardPage_effect now dashboard_mounted
    (mkWorld (only_token expired_token) None false ["/dashboard"])
    = (Ret dashboard_mounted,
       mkWorld (delete "user" (delete "token" (only_token expired_token)))
               None false ["/login"]).
Proof.
  apply (DashboardPage_expired_clears now dashboard_mounted
           (mkWorld (only_token expired_token) None false ["/dashboard"])
           expired_token expired_claims 1000).
  - reflexivity.
  - vm_compute. reflexivity.
  - reflexivity.
  - vm_compute. lia.
  - vm_compute. reflexivity.
Defined.

Example logout_paths_block_witness :
  storage (snd (logoutAndGoLogin signed_in)) !! "token" = None /\
  storage (snd (logoutAndGoLogin signed_in)) !! "user" = None /\
  authHeaders (snd (logoutAndGoLogin signed_in))
    = (Ret [], snd (logoutAndGoLogin signed_in)) /\
  head (history (snd (logoutAndGoLogin signed_in))) = Some "/login" /\
  PrivateRoute "page" (Some [STUDENT]) (snd (logoutAndGoLogin signed_in)) =
    (if hydrating signed_in then Nothing else Navigate "/login" true) /\
  (snd (logoutAndGoLogin signed_in) = snd (logoutAndGoLogin signed_in) ->
   user (snd (logoutAndGoLogin signed_in)) = user signed_in).
Proof.
  apply (logout_paths_block "page" (Some [STUDENT]) signed_in
           (snd (logoutAndGoLogin signed_in))).
  right. right. left. reflexivity.
Defined.

Example PrivateRoute_redirect_target_renders_witness :
  true = true /\
  exists (e : RouteElement) (page : Page),
    declared_route "/dashboard" = Some e /\
    render_route e signed_in = Fragment page.
Proof.
  apply (PrivateRoute_redirect_target_renders "page" (Some [INSTRUCTOR])
           signed_in "/dashboard" true).
  vm_compute. reflexivity.
Defined.

Example DashboardPage_redirect_vs_guard_witness :
  exists (w' : World) (page : Page),
    DashboardPage_effect now dashboard_mounted signed_in
      = (Ret dashboard_mounted, w') /\
    history w' = roleToPath (JStr (role_name STUDENT)) :: tail (history signed_in) /\
    declared_route (roleToPath (JStr (role_name STUDENT)))
      = Some (Private (Some [STUDENT]) page) /\
    (role student = JStr (role_name STUDENT) ->
     render_route (Private (Some [STUDENT]) page) w' = Fragment page) /\
    (role student <> JStr (role_name STUDENT) ->
     render_route (Private (Some [STUDENT]) page) w' = Navigate "/dashboard" true).
Proof.
  apply (DashboardPage_redirect_vs_guard now dashboard_mounted signed_in student
           valid_token valid_claims STUDENT).
  - reflexivity.
  - reflexivity.
  - reflexivity.
  - vm_compute. reflexivity.
  - vm_compute. reflexivity.
  - reflexivity.
Defined.

Example readJwt_ignores_signature_witness :
  fst (readJwt now (mount (only_token valid_token) []))
    = fst (readJwt now
             (mount (only_token ("other" ++ String "."
                                   (valid_middle ++ String "." "forged")))
                    [])).
Proof.
  apply (readJwt_ignores_signature now
           (mount (only_token valid_token) [])
           (mount (only_token ("other" ++ String "."
                                 (valid_middle ++ String "." "forged")))
                  [])
           "h" "other" valid_middle "s" "forged").
  - reflexivity.
  - reflexivity.
  - reflexivity.
  - vm_compute. reflexivity.
  - vm_compute. reflexivity.
Defined.


Example readJwt_zero_expiry_kept_witness :
  (0 < seconds now)%Q /\
  readJwt now (mount (only_token zero_exp_token) ["/"])
    = (Ret zero_exp_claims, mount (only_token zero_exp_token) ["/"]) /\
  zero_exp_claims <> JNull.
Proof.
  split; [vm_compute; reflexivity|].
  apply (readJwt_zero_expiry_kept now (mount (only_token zero_exp_token) ["/"])
           zero_exp_token zero_exp_claims 0).
  - reflexivity.
  - vm_compute. reflexivity.
  - reflexivity.
  - reflexivity.
Defined.

End MoreEvaluation.
